(** * A shallow embedding of [server.js]

    The server is an Express application with five JSON routes over three
    Mongoose models ([Product], [User], [Order]) and one middleware
    ([authUser]).  The embedding keeps the shape of the source:

    - request bodies are JavaScript values as [express.json()] produces them;
    - numbers are IEEE 754 binary64 floats, as in JavaScript;
    - a handler is a computation over the document store that may throw,
      and [try { ... } catch (e) { ... }] is a combinator;
    - what the third-party packages compute (string-to-number parsing,
      ObjectId casting, bcrypt, jsonwebtoken) is a record of functions the
      handlers are parameterised by. *)

From Stdlib Require Import ZArith NArith List String Ascii Bool Lia.
From Stdlib Require Import Floats DecimalString DecimalN.
Import ListNotations.
Local Open Scope string_scope.
Set Warnings "-register-all".

(** ** JavaScript values *)

Module JS.

(** The values a parsed JSON body is made of, and [undefined] for what a
    property read yields when the property is missing.  An object is the
    list of its own properties; a read returns the first binding of a key. *)
Inductive JSValue : Type :=
| JUndefined
| JNull
| JBool (b : bool)
| JNum (x : float)
| JStr (s : string)
| JArr (elems : list JSValue)
| JObj (props : list (string * JSValue)).

(** What a JavaScript expression can throw in this program. *)
Inductive Exn : Type :=
| TypeError          (* property read on null or undefined, failed ToPrimitive *)
| CastError          (* Mongoose could not cast a query value to the schema type *)
| ValidationError    (* Mongoose: a document path is missing or does not cast *)
| DuplicateKeyError  (* MongoDB E11000 on a unique index *)
| StoreError         (* the store did not answer *)
| JsonWebTokenError  (* malformed token or bad signature *)
| TokenExpiredError
| BcryptError.       (* bcryptjs: illegal arguments *)

Inductive result (A : Type) : Type :=
| Ok (a : A)
| Throw (e : Exn).
Arguments Ok {A} a.
Arguments Throw {A} e.

Definition is_zero_or_nan (x : float) : bool :=
  (PrimFloat.is_zero x || PrimFloat.is_nan x)%bool.

(** ToBoolean: what [!v] and [a || b] test. *)
Definition truthy (v : JSValue) : bool :=
  match v with
  | JUndefined | JNull => false
  | JBool b => b
  | JNum x => negb (is_zero_or_nan x)
  | JStr s => negb (String.eqb s "")
  | JArr _ | JObj _ => true
  end.

Fixpoint lookup (key : string) (props : list (string * JSValue)) : JSValue :=
  match props with
  | [] => JUndefined
  | (k, v) :: rest => if String.eqb k key then v else lookup key rest
  end.

(** [v.key], for the keys this program reads ([name], [email], [password],
    [items], [price], [quantity], [productId]): none of them is a property
    of a string, number, boolean or array, and a read on [null] or
    [undefined] throws. *)
Definition get (v : JSValue) (key : string) : result JSValue :=
  match v with
  | JUndefined | JNull => Throw TypeError
  | JObj props => Ok (lookup key props)
  | JBool _ | JNum _ | JStr _ | JArr _ => Ok JUndefined
  end.

(** [Array.isArray(v)], and the elements of an array. *)
Definition Array_isArray (v : JSValue) : bool :=
  match v with
  | JArr _ => true
  | _ => false
  end.

Definition elements (v : JSValue) : list JSValue :=
  match v with
  | JArr elems => elems
  | _ => []
  end.

(** [s.startsWith(p)] and [s.slice(n)] for [0 <= n]. *)
Definition startsWith (s p : string) : bool := String.prefix p s.

Fixpoint slice (s : string) (n : nat) {struct n} : string :=
  match n, s with
  | O, _ => s
  | S n', String _ rest => slice rest n'
  | S _, EmptyString => EmptyString
  end.

End JS.
Import JS.

(** ** Documents (the three schemas, lines 24-48) *)

Definition ObjectId := N.

Record Product : Type := {
  p_id : ObjectId;
  p_name : string;
  p_description : string;
  p_price : float;
  p_image : string
}.

Record User : Type := {
  u_id : ObjectId;
  u_name : string;
  u_email : string;
  u_password : string
}.

(** An element of [items].  Mongoose also gives each element an [_id] of
    its own; validation checks the one a client sends ([castOwnId] below),
    and nothing reads the stored one. *)
Record OrderItem : Type := {
  it_productId : ObjectId;
  it_quantity : float;
  it_price : float
}.

Record Order : Type := {
  o_id : ObjectId;
  o_userId : ObjectId;
  o_items : list OrderItem;
  o_total : float;
  o_createdAt : N
}.

(** ** What the packages compute

    [jwt.verify] returns the decoded payload; every token this server signs
    has the payload [{ id: user._id }] plus the times the package adds. *)

Record Decoded : Type := {
  decoded_id : ObjectId;
  decoded_exp : N
}.

Record Runtime : Type := {
  (* ECMAScript StringToNumber *)
  StringToNumber : string -> float;
  (* ECMAScript ToNumber of an array or an object (ToPrimitive first) *)
  ObjectToNumber : JSValue -> result float;
  (* Mongoose: cast of a value to an ObjectId; a required path rejects null
     and undefined before it casts *)
  castObjectId : JSValue -> option ObjectId;
  (* Mongoose: cast of a value that is not a string to a String path *)
  castString : JSValue -> option string;
  (* Mongoose: a query condition on a String path that is not a string *)
  castQuery : JSValue -> result (string -> bool);
  (* bcryptjs: hash of a plaintext under the given randomness, and compare *)
  bcrypt_hash : N -> string -> string;
  bcrypt_compare : string -> string -> bool;
  (* jsonwebtoken: sign payload [{id}] with a secret, a lifetime in seconds
     and the clock; verify a token with a secret and the clock *)
  jwt_sign : ObjectId -> string -> N -> N -> string;
  jwt_verify : string -> string -> N -> result Decoded
}.

(** ** The process environment and the store *)

(** The model calls of the handlers: [Product.find], [Product.findById],
    [User.findOne], [User.create], [Order.create]. *)
Inductive StoreOp : Type :=
| ProductFind | ProductFindById | UserFindOne | UserCreate | OrderCreate.

(** [env_JWT_SECRET] is [process.env.JWT_SECRET]; [clock] is the time, in
    seconds since the epoch, as the token package reads it; [entropy] is the
    randomness bcrypt salts with; [store_fails op] tells whether the store
    fails to answer the model call [op]. *)
Record Env : Type := {
  env_JWT_SECRET : option string;
  clock : N;
  entropy : N;
  store_fails : StoreOp -> bool
}.

(** [process.env.JWT_SECRET || 'dev_secret'] (line 15). *)
Definition JWT_SECRET (env : Env) : string :=
  match env_JWT_SECRET env with
  | Some s => if String.eqb s "" then "dev_secret" else s
  | None => "dev_secret"
  end.

(** The collections, the next identifier the driver generates, and a
    history of the model calls the handlers made (most recent first): the
    history is ghost state, kept to state which calls a request caused. *)
Record Store : Type := {
  products : list Product;
  users : list User;
  orders : list Order;
  next_id : ObjectId;
  journal : list StoreOp
}.

(** ** Computations that read and write the store and may throw *)

Definition M (A : Type) : Type := Store -> result A * Store.

Definition ret {A} (a : A) : M A := fun st => (Ok a, st).

Definition throw {A} (e : Exn) : M A := fun st => (Throw e, st).

Definition bind {A B} (m : M A) (k : A -> M B) : M B :=
  fun st =>
    match m st with
    | (Ok a, st') => k a st'
    | (Throw e, st') => (Throw e, st')
    end.

Definition lift {A} (r : result A) : M A := fun st => (r, st).

Declare Scope js_scope.
Delimit Scope js_scope with js.
Notation "x <- m ;; k" := (bind m (fun x => k))
  (at level 100, m at next level, right associativity) : js_scope.
Notation "m ;;; k" := (bind m (fun _ => k))
  (at level 100, right associativity) : js_scope.
Local Open Scope js_scope.

(** [try { body } catch (e) { handler }] where the handler only responds. *)
Definition try_catch {A} (body : M A) (handler : Exn -> A) : Store -> A * Store :=
  fun st =>
    match body st with
    | (Ok a, st') => (a, st')
    | (Throw e, st') => (handler e, st')
    end.

Definition logged (op : StoreOp) (st : Store) : Store :=
  {| products := products st; users := users st; orders := orders st;
     next_id := next_id st; journal := op :: journal st |}.

Definition record_call (op : StoreOp) : M unit :=
  fun st => (Ok tt, logged op st).

(** Insertion of a document under the identifier the driver generated. *)
Definition insert_user (user : User) (st : Store) : Store :=
  {| products := products st; users := users st ++ [user]; orders := orders st;
     next_id := N.succ (next_id st); journal := journal st |}.

Definition insert_order (order : Order) (st : Store) : Store :=
  {| products := products st; users := users st; orders := orders st ++ [order];
     next_id := N.succ (next_id st); journal := journal st |}.

Definition round_trip (env : Env) (op : StoreOp) : M unit :=
  if store_fails env op then throw StoreError else ret tt.

Definition read_store : M Store := fun st => (Ok st, st).

(** ** Coercions *)

Section Coercions.
Variable rt : Runtime.

(** [Number(v)]: ECMAScript ToNumber. *)
Definition Number (v : JSValue) : result float :=
  match v with
  | JUndefined => Ok PrimFloat.nan
  | JNull => Ok PrimFloat.zero
  | JBool true => Ok PrimFloat.one
  | JBool false => Ok PrimFloat.zero
  | JNum x => Ok x
  | JStr s => Ok (StringToNumber rt s)
  | JArr _ | JObj _ => ObjectToNumber rt v
  end.

(** Mongoose's cast of a path declared [{ type: Number, required: true }]:
    null, undefined and the empty string are a missing value, NaN and
    arrays and objects do not cast. *)
Definition castNumber (v : JSValue) : option float :=
  match v with
  | JUndefined | JNull => None
  | JBool true => Some PrimFloat.one
  | JBool false => Some PrimFloat.zero
  | JNum x => if PrimFloat.is_nan x then None else Some x
  | JStr s =>
      if String.eqb s "" then None
      else let x := StringToNumber rt s in
           if PrimFloat.is_nan x then None else Some x
  | JArr _ | JObj _ => None
  end.

(** A path declared [{ type: ObjectId, required: true }]. *)
Definition castRequiredObjectId (v : JSValue) : option ObjectId :=
  match v with
  | JUndefined | JNull => None
  | _ => castObjectId rt v
  end.

(** A path declared [{ type: String, required: true }]: the cast value has
    to be a non-empty string. *)
Definition castRequiredString (v : JSValue) : option string :=
  match v with
  | JUndefined | JNull => None
  | JStr s => if String.eqb s "" then None else Some s
  | _ =>
      match castString rt v with
      | Some s => if String.eqb s "" then None else Some s
      | None => None
      end
  end.

(** The [_id] path Mongoose adds to every element of [items]: an [_id] the
    client sends has to cast to an ObjectId; when it sends none, one is
    generated. *)
Definition castOwnId (v : JSValue) : bool :=
  match v with
  | JUndefined => true
  | _ =>
      match castObjectId rt v with
      | Some _ => true
      | None => false
      end
  end.

(** One element of [items] against the sub-schema of lines 40-44. *)
Definition castItem (v : JSValue) : option OrderItem :=
  match v with
  | JObj props =>
      if castOwnId (lookup "_id" props) then
        match castRequiredObjectId (lookup "productId" props),
              castNumber (lookup "quantity" props),
              castNumber (lookup "price" props) with
        | Some pid, Some q, Some p =>
            Some {| it_productId := pid; it_quantity := q; it_price := p |}
        | _, _, _ => None
        end
      else None
  | _ => None
  end.

Fixpoint castItems (vs : list JSValue) : option (list OrderItem) :=
  match vs with
  | [] => Some []
  | v :: rest =>
      match castItem v, castItems rest with
      | Some it, Some its => Some (it :: its)
      | _, _ => None
      end
  end.

(** [bcrypt.hash(password, 10)] and [bcrypt.compare(password, hash)]:
    bcryptjs rejects a plaintext that is not a string. *)
Definition bcrypt_hash_js (env : Env) (password : JSValue) : result string :=
  match password with
  | JStr p => Ok (bcrypt_hash rt (entropy env) p)
  | _ => Throw BcryptError
  end.

Definition bcrypt_compare_js (password : JSValue) (hash : string) : result bool :=
  match password with
  | JStr p => Ok (bcrypt_compare rt p hash)
  | _ => Throw BcryptError
  end.

End Coercions.

(** ** The models (lines 50-52) *)

Section Models.
Variable rt : Runtime.
Variable env : Env.

(** [Product.find()] *)
Definition Product_find : M (list Product) :=
  record_call ProductFind ;;;
  round_trip env ProductFind ;;;
  st <- read_store ;;
  ret (products st).

(** [Product.findById(id)]: the identifier is cast before the query is
    sent, and a value that does not cast throws. *)
Definition Product_findById (id : string) : M (option Product) :=
  record_call ProductFindById ;;;
  match castObjectId rt (JStr id) with
  | None => throw CastError
  | Some oid =>
      round_trip env ProductFindById ;;;
      st <- read_store ;;
      ret (List.find (fun p => N.eqb (p_id p) oid) (products st))
  end.

(** The condition [{ email }] of [User.findOne]. *)
Definition email_condition (email : JSValue) : result (string -> bool) :=
  match email with
  | JStr s => Ok (String.eqb s)
  | _ => castQuery rt email
  end.

(** [User.findOne({ email })] *)
Definition User_findOne (email : JSValue) : M (option User) :=
  record_call UserFindOne ;;;
  cond <- lift (email_condition email) ;;
  round_trip env UserFindOne ;;;
  st <- read_store ;;
  ret (List.find (fun u => cond (u_email u)) (users st)).

Definition email_taken (e : string) (us : list User) : bool :=
  List.existsb (fun u => String.eqb (u_email u) e) us.

(** [User.create({ name, email, password: hash })]: validation against
    [userSchema], then the insertion, which the unique index on [email]
    (line 33) refuses for an email already stored. *)
Definition User_create (name email : JSValue) (hash : string) : M User :=
  record_call UserCreate ;;;
  match castRequiredString rt name, castRequiredString rt email with
  | Some n, Some e =>
      if String.eqb hash "" then throw ValidationError
      else
        round_trip env UserCreate ;;;
        fun st =>
          if email_taken e (users st) then (Throw DuplicateKeyError, st)
          else
            let user := {| u_id := next_id st; u_name := n; u_email := e;
                           u_password := hash |} in
            (Ok user, insert_user user st)
  | _, _ => throw ValidationError
  end.

(** [Order.create({ userId, items, total })]: validation against
    [orderSchema] (lines 37-48), then the insertion; [createdAt] defaults
    to the clock. *)
Definition validateOrder (userId : option ObjectId) (items : list JSValue)
    (total : float) : option (ObjectId * list OrderItem * float) :=
  match userId, castItems rt items, castNumber rt (JNum total) with
  | Some uid, Some its, Some t => Some (uid, its, t)
  | _, _, _ => None
  end.

Definition new_order (id : ObjectId) (doc : ObjectId * list OrderItem * float) : Order :=
  let '(uid, its, t) := doc in
  {| o_id := id; o_userId := uid; o_items := its; o_total := t;
     o_createdAt := clock env |}.

Definition Order_create (userId : option ObjectId) (items : list JSValue)
    (total : float) : M Order :=
  record_call OrderCreate ;;;
  match validateOrder userId items total with
  | None => throw ValidationError
  | Some doc =>
      round_trip env OrderCreate ;;;
      fun st =>
        let order := new_order (next_id st) doc in
        (Ok order, insert_order order st)
  end.

End Models.

(** ** Requests and responses *)

(** [authorization] is [req.headers.authorization], [params_id] is
    [req.params.id], [body] is [req.body], and [req_userId] is the
    [req.userId] the middleware sets ([None] is undefined). *)
Record Request : Type := {
  authorization : option string;
  params_id : string;
  body : JSValue;
  req_userId : option ObjectId
}.

Definition set_userId (req : Request) (id : ObjectId) : Request :=
  {| authorization := authorization req; params_id := params_id req;
     body := body req; req_userId := Some id |}.

Inductive Body : Type :=
| Message (message : string)                      (* { message } *)
| ProductList (ps : list Product)
| ProductDoc (p : Product)
| Session (token : string) (id : ObjectId) (name email : string)
                                                  (* { token, user: { id, name, email } } *)
| OrderDoc (o : Order)
| Text (s : string).

Record Response : Type := {
  status : N;
  payload : Body
}.

(** [res.status(code).json(b)]; [res.json(b)] is [json 200 b]. *)
Definition json (code : N) (b : Body) : Response :=
  {| status := code; payload := b |}.

(** A route handler always ends by responding: it is an async function
    whose body is one [try]/[catch]. *)
Definition Handler : Type := Request -> Store -> Response * Store.

(** ** The middleware and the routes *)

Section Server.
Variable rt : Runtime.
Variable env : Env.

(** [{ expiresIn: '7d' }] in seconds. *)
Definition expiresIn_7d : N := 7 * 24 * 60 * 60.

(** [jwt.sign({ id }, JWT_SECRET, { expiresIn: '7d' })] (lines 98, 113). *)
Definition issueToken (id : ObjectId) : string :=
  jwt_sign rt id (JWT_SECRET env) expiresIn_7d (clock env).

(** [jwt.verify(token, JWT_SECRET)] (line 60). *)
Definition verifyToken (token : string) : result Decoded :=
  jwt_verify rt token (JWT_SECRET env) (clock env).

(** [req.headers.authorization || ''] *)
Definition header_or_empty (h : option string) : string :=
  match h with
  | Some a => a
  | None => ""
  end.

(** [auth.startsWith('Bearer ') ? auth.slice(7) : null] *)
Definition bearer_token (auth : string) : option string :=
  if startsWith auth "Bearer " then Some (slice auth 7) else None.

(** [authUser] (lines 55-66).  [next] is the route's handler. *)
Definition authUser (next : Handler) : Handler :=
  fun req st =>
    let auth := header_or_empty (authorization req) in
    let token := bearer_token auth in
    match token with
    | None => (json 401 (Message "No token provided"), st)
    | Some t =>
        if String.eqb t "" then (json 401 (Message "No token provided"), st)
        else
          match verifyToken t with
          | Ok decoded => next (set_userId req (decoded_id decoded)) st
          | Throw _ => (json 401 (Message "Invalid token"), st)
          end
    end.

(** [GET /api/products] (lines 70-77) *)
Definition get_products : Handler :=
  fun _ =>
    try_catch
      (ps <- Product_find env ;;
       ret (json 200 (ProductList ps)))
      (fun _ => json 500 (Message "Server error")).

(** [GET /api/products/:id] (lines 79-87) *)
Definition get_product : Handler :=
  fun req =>
    try_catch
      (p <- Product_findById rt env (params_id req) ;;
       match p with
       | None => ret (json 404 (Message "Product not found"))
       | Some p => ret (json 200 (ProductDoc p))
       end)
      (fun _ => json 400 (Message "Invalid ID")).

Definition session_for (user : User) : Response :=
  json 200 (Session (issueToken (u_id user)) (u_id user) (u_name user) (u_email user)).

(** [POST /api/auth/register] (lines 90-103) *)
Definition register : Handler :=
  fun req =>
    try_catch
      (name <- lift (get (body req) "name") ;;
       email <- lift (get (body req) "email") ;;
       password <- lift (get (body req) "password") ;;
       if (negb (truthy name) || negb (truthy email) || negb (truthy password))%bool
       then ret (json 400 (Message "Missing fields"))
       else
         exists_ <- User_findOne rt env email ;;
         match exists_ with
         | Some _ => ret (json 409 (Message "Email already registered"))
         | None =>
             hash <- lift (bcrypt_hash_js rt env password) ;;
             user <- User_create rt env name email hash ;;
             ret (session_for user)
         end)
      (fun _ => json 500 (Message "Server error")).

(** [POST /api/auth/login] (lines 105-118) *)
Definition login : Handler :=
  fun req =>
    try_catch
      (email <- lift (get (body req) "email") ;;
       password <- lift (get (body req) "password") ;;
       if (negb (truthy email) || negb (truthy password))%bool
       then ret (json 400 (Message "Missing fields"))
       else
         user <- User_findOne rt env email ;;
         match user with
         | None => ret (json 401 (Message "Invalid credentials"))
         | Some user =>
             ok <- lift (bcrypt_compare_js rt password (u_password user)) ;;
             if negb ok then ret (json 401 (Message "Invalid credentials"))
             else ret (session_for user)
         end)
      (fun _ => json 500 (Message "Server error")).

(** The callback of [items.reduce] (line 128):
    [sum + (Number(it.price) * Number(it.quantity))]. *)
Definition add_line (sum : float) (it : JSValue) : result float :=
  match get it "price" with
  | Throw e => Throw e
  | Ok price =>
      match Number rt price with
      | Throw e => Throw e
      | Ok p =>
          match get it "quantity" with
          | Throw e => Throw e
          | Ok quantity =>
              match Number rt quantity with
              | Throw e => Throw e
              | Ok q => Ok (sum + p * q)%float
              end
          end
      end
  end.

(** [items.reduce(callback, sum)]: left to right, stopping at a throw. *)
Fixpoint reduce (items : list JSValue) (sum : float) : result float :=
  match items with
  | [] => Ok sum
  | it :: rest =>
      match add_line sum it with
      | Ok sum' => reduce rest sum'
      | Throw e => Throw e
      end
  end.

(** The handler of [POST /api/orders] (lines 121-134), behind [authUser]. *)
Definition create_order : Handler :=
  fun req =>
    try_catch
      (items <- lift (get (body req) "items") ;;
       if (negb (Array_isArray items) || Nat.eqb (List.length (elements items)) 0)%bool
       then ret (json 400 (Message "Items required"))
       else
         total <- lift (reduce (elements items) PrimFloat.zero) ;;
         order <- Order_create rt env (req_userId req) (elements items) total ;;
         ret (json 201 (OrderDoc order)))
      (fun _ => json 500 (Message "Server error")).

(** [GET /] (lines 136-138) *)
Definition root : Handler :=
  fun _ st => (json 200 (Text "USER API running"), st).

Inductive Route : Type :=
| GET_products
| GET_product
| POST_register
| POST_login
| POST_orders
| GET_root.

(** The routing table: only [POST /api/orders] is behind [authUser]. *)
Definition app (r : Route) : Handler :=
  match r with
  | GET_products => get_products
  | GET_product => get_product
  | POST_register => register
  | POST_login => login
  | POST_orders => authUser create_order
  | GET_root => root
  end.

End Server.

(** ** The token package, from the specification

    [jsonwebtoken] is not part of the repository.  The model keeps what the
    specification says of it: a token is self-contained, embeds the
    identity's id and an expiration, and carries a signature over both under
    the secret; verification checks the signature, then the expiration.  The
    keyed hash is a parameter.  A token is three decimal fields separated
    by dots: id, expiration, signature. *)

Module SpecJwt.

Definition dot : ascii := "."%char.

Definition field (n : N) : string := NilEmpty.string_of_uint (N.to_uint n).

Definition unfield (s : string) : option N :=
  match s with
  | EmptyString => None
  | _ => option_map N.of_uint (NilEmpty.uint_of_string s)
  end.

(** The fields of a dotted string: [segments "1.22.3" = ["1"; "22"; "3"]]. *)
Fixpoint segments (s : string) : list string :=
  match s with
  | EmptyString => [EmptyString]
  | String c rest =>
      if Ascii.eqb c dot then EmptyString :: segments rest
      else
        match segments rest with
        | first :: others => String c first :: others
        | [] => [String c EmptyString]
        end
  end.

Section WithMac.
Variable hmac : string -> string -> N.

Definition signing_input (id exp : string) : string :=
  id ++ String dot exp.

(** Modelled from the spec: [jwt.sign] of the package jsonwebtoken, which is
    not under src/ -- "produces a signed, self-contained token embedding the
    identity's unique id and an expiration 7 days from issuance"; the
    lifetime is the [expiresIn] argument and the clock counts seconds. *)
Definition sign (id : ObjectId) (secret : string) (expiresIn now : N) : string :=
  let input := signing_input (field id) (field (now + expiresIn)) in
  input ++ String dot (field (hmac secret input)).

(** Modelled from the spec: [jwt.verify] of the package jsonwebtoken, which
    is not under src/ -- "checks signature and expiration; fails with
    Unauthorized if the signature is invalid, the token is malformed, or it
    has expired". *)
Definition verify (token secret : string) (now : N) : result Decoded :=
  match segments token with
  | [i; e; s] =>
      match unfield i, unfield e, unfield s with
      | Some id, Some exp, Some sig =>
          if N.eqb sig (hmac secret (signing_input i e)) then
            if N.ltb now exp then Ok {| decoded_id := id; decoded_exp := exp |}
            else Throw TokenExpiredError
          else Throw JsonWebTokenError
      | _, _, _ => Throw JsonWebTokenError
      end
  | _ => Throw JsonWebTokenError
  end.

End WithMac.
End SpecJwt.

(** A runtime whose token functions are the ones above. *)
Definition with_spec_jwt (hmac : string -> string -> N) (rt : Runtime) : Runtime :=
  {| StringToNumber := StringToNumber rt;
     ObjectToNumber := ObjectToNumber rt;
     castObjectId := castObjectId rt;
     castString := castString rt;
     castQuery := castQuery rt;
     bcrypt_hash := bcrypt_hash rt;
     bcrypt_compare := bcrypt_compare rt;
     jwt_sign := SpecJwt.sign hmac;
     jwt_verify := SpecJwt.verify hmac |}.

(** The same environment at another reading of the clock. *)
Definition at_time (env : Env) (now : N) : Env :=
  {| env_JWT_SECRET := env_JWT_SECRET env; clock := now;
     entropy := entropy env; store_fails := store_fails env |}.

(** ** A reference runtime

    Small stand-ins for the packages, enough to run the handlers on concrete
    requests.  The theorems below hold for every runtime; this one is only
    what the examples are computed with. *)

Module Reference.

Definition digit_value (c : ascii) : option N :=
  let n := N_of_ascii c in
  if ((48 <=? n) && (n <=? 57))%N%bool then Some (n - 48)%N
  else if ((97 <=? n) && (n <=? 102))%N%bool then Some (n - 87)%N
  else if ((65 <=? n) && (n <=? 70))%N%bool then Some (n - 55)%N
  else None.

Fixpoint parse_hex (s : string) (acc : N) : option N :=
  match s with
  | EmptyString => Some acc
  | String c rest =>
      match digit_value c with
      | Some d => parse_hex rest (16 * acc + d)%N
      | None => None
      end
  end.

(** An ObjectId is written as 24 hexadecimal digits. *)
Definition cast_object_id (v : JSValue) : option ObjectId :=
  match v with
  | JStr s => if Nat.eqb (String.length s) 24 then parse_hex s 0%N else None
  | _ => None
  end.

Fixpoint parse_decimal (s : string) (acc : float) : float :=
  match s with
  | EmptyString => acc
  | String c rest =>
      match digit_value c with
      | Some d =>
          if (d <=? 9)%N
          then parse_decimal rest (acc * 10 + PrimFloat.of_uint63 (Uint63.of_Z (Z.of_N d)))%float
          else PrimFloat.nan
      | None => PrimFloat.nan
      end
  end.

(** Unsigned decimal integers only; every other string is NaN here. *)
Definition parse_number (s : string) : float := parse_decimal s PrimFloat.zero.

Definition object_number (v : JSValue) : result float :=
  match v with
  | JArr [] => Ok PrimFloat.zero
  | _ => Ok PrimFloat.nan
  end.

Definition cast_string (v : JSValue) : option string :=
  match v with
  | JBool true => Some "true"
  | JBool false => Some "false"
  | _ => None
  end.

Definition cast_query (v : JSValue) : result (string -> bool) := Throw CastError.

Fixpoint checksum (s : string) (acc : N) : N :=
  match s with
  | EmptyString => acc
  | String c rest => checksum rest ((31 * acc + N_of_ascii c) mod 4294967291)%N
  end.

Definition hmac (key message : string) : N :=
  checksum message (checksum key 7%N).

(** A salted digest, written [salt.digest]. *)
Definition salted_hash (salt : N) (plaintext : string) : string :=
  SpecJwt.signing_input (SpecJwt.field salt)
    (SpecJwt.field (hmac (SpecJwt.field salt) plaintext)).

Definition salted_compare (plaintext hash : string) : bool :=
  match SpecJwt.segments hash with
  | [salt; digest] =>
      match SpecJwt.unfield digest with
      | Some d => N.eqb d (hmac salt plaintext)
      | None => false
      end
  | _ => false
  end.

Definition runtime : Runtime :=
  {| StringToNumber := parse_number;
     ObjectToNumber := object_number;
     castObjectId := cast_object_id;
     castString := cast_string;
     castQuery := cast_query;
     bcrypt_hash := salted_hash;
     bcrypt_compare := salted_compare;
     jwt_sign := SpecJwt.sign hmac;
     jwt_verify := SpecJwt.verify hmac |}.

End Reference.

(** ** Sample data for the examples *)

Module Sample.

Definition env : Env :=
  {| env_JWT_SECRET := None; clock := 1000%N; entropy := 5%N;
     store_fails := fun _ => false |}.

(** The same process with the store unreachable. *)
Definition env_down : Env :=
  {| env_JWT_SECRET := None; clock := 1000%N; entropy := 5%N;
     store_fails := fun _ => true |}.

Definition ana : User :=
  {| u_id := 1%N; u_name := "Ana"; u_email := "ana@example.com";
     u_password := Reference.salted_hash 5%N "s3cret" |}.

Definition store : Store :=
  {| products := []; users := [ana]; orders := []; next_id := 2%N; journal := [] |}.

Definition request (auth : option string) (id : string) (b : JSValue) : Request :=
  {| authorization := auth; params_id := id; body := b; req_userId := None |}.

Definition token : string := issueToken Reference.runtime env 1%N.

Definition item (pid : string) (q p : float) : JSValue :=
  JObj [("productId", JStr pid); ("quantity", JNum q); ("price", JNum p)].

(** The items of the specification's example: total 25. *)
Definition two_items : list JSValue :=
  [item "0123456789abcdef01234567" 2%float 10%float;
   item "0123456789abcdef01234568" 1%float 5%float].

Definition order_request (elems : list JSValue) : Request :=
  request (Some ("Bearer " ++ token)) "" (JObj [("items", JArr elems)]).

End Sample.

(** ** Notions the properties are stated with *)

(** The amount of one submitted item: its price times its quantity, each as
    the number [Number] makes of it. *)
Definition amount (rt : Runtime) (it : JSValue) : result float :=
  match get it "price", get it "quantity" with
  | Ok price, Ok quantity =>
      match Number rt price, Number rt quantity with
      | Ok p, Ok q => Ok (p * q)%float
      | Throw e, _ => Throw e
      | _, Throw e => Throw e
      end
  | Throw e, _ => Throw e
  | _, Throw e => Throw e
  end.

(** The sum of a list of amounts, from zero, left to right. *)
Definition sum (amounts : list float) : float :=
  List.fold_left PrimFloat.add amounts PrimFloat.zero.

(** The answer of every [catch] block but the one of [GET /api/products/:id]. *)
Definition server_error : Response := json 500 (Message "Server error").

(** The fields [login] requires are present in the body. *)
Definition credentials_present (req : Request) (email password : JSValue) : Prop :=
  get (body req) "email" = Ok email
  /\ get (body req) "password" = Ok password
  /\ truthy email = true
  /\ truthy password = true.

(** The email matches no stored user. *)
Definition unknown_email (rt : Runtime) (email : JSValue) (st : Store) : Prop :=
  exists cond,
    email_condition rt email = Ok cond
    /\ List.find (fun u => cond (u_email u)) (users st) = None.

(** The email matches a stored user whose hash the password does not
    verify against. *)
Definition wrong_password (rt : Runtime) (email password : JSValue) (st : Store) : Prop :=
  exists cond user,
    email_condition rt email = Ok cond
    /\ List.find (fun u => cond (u_email u)) (users st) = Some user
    /\ bcrypt_compare_js rt password (u_password user) = Ok false.

(** No two stored users share an email. *)
Definition unique_emails (st : Store) : Prop :=
  NoDup (List.map u_email (users st)).

(** The answer of [login] to credentials it does not accept. *)
Definition invalid_credentials : Response :=
  json 401 (Message "Invalid credentials").

(** The store with another catalogue of products. *)
Definition with_products (st : Store) (ps : list Product) : Store :=
  {| products := ps; users := users st; orders := orders st;
     next_id := next_id st; journal := journal st |}.

(** Two stores hold the same documents and generate the same next
    identifier; only the history of calls may differ. *)
Definition same_collections (a b : Store) : Prop :=
  products a = products b
  /\ users a = users b
  /\ orders a = orders b
  /\ next_id a = next_id b.

(** The status codes the source writes in each route: the [res.status]
    calls of its handler (and of [authUser] before it), 200 for a bare
    [res.json] or [res.send]. *)
Definition statuses_of (r : Route) : list N :=
  match r with
  | GET_products => [200; 500]%N
  | GET_product => [200; 404; 400]%N
  | POST_register => [200; 400; 409; 500]%N
  | POST_login => [200; 400; 401; 500]%N
  | POST_orders => [201; 400; 401; 500]%N
  | GET_root => [200]%N
  end.

(** The user [register] stores for a name, an email and a plaintext. *)
Definition registered_user (rt : Runtime) (env : Env) (st : Store)
    (name email plaintext : string) : User :=
  {| u_id := next_id st; u_name := name; u_email := email;
     u_password := bcrypt_hash rt (entropy env) plaintext |}.

(** The store after [register] looked the email up and created the user. *)
Definition after_registration (user : User) (st : Store) : Store :=
  insert_user user (logged UserCreate (logged UserFindOne st)).

(** A registration [register] accepts: the three fields are non-empty
    strings, no stored user has the email, the store answers both calls and
    the hash bcrypt returns is not empty. *)
Definition valid_registration (rt : Runtime) (env : Env) (req : Request) (st : Store)
    (name email plaintext : string) : Prop :=
  get (body req) "name" = Ok (JStr name)
  /\ get (body req) "email" = Ok (JStr email)
  /\ get (body req) "password" = Ok (JStr plaintext)
  /\ name <> "" /\ email <> "" /\ plaintext <> ""
  /\ email_taken email (users st) = false
  /\ store_fails env UserFindOne = false
  /\ store_fails env UserCreate = false
  /\ bcrypt_hash rt (entropy env) plaintext <> "".

(** The request carries a bearer token that verifies to [decoded]. *)
Definition authenticated (rt : Runtime) (env : Env) (req : Request)
    (decoded : Decoded) : Prop :=
  exists tok,
    authorization req = Some ("Bearer " ++ tok)
    /\ tok <> ""
    /\ verifyToken rt env tok = Ok decoded.

(** A store with a catalogue, for the examples. *)
Module Catalog.

Definition mug : Product :=
  {| p_id := 352125166730063718056674663%N; p_name := "Mug";
     p_description := ""; p_price := 10%float; p_image := "" |}.

Definition cap : Product :=
  {| p_id := 352125166730063718056674664%N; p_name := "Cap";
     p_description := "Green"; p_price := 5%float; p_image := "" |}.

Definition store : Store :=
  {| products := [mug; cap]; users := [Sample.ana]; orders := [];
     next_id := 2%N; journal := [] |}.

End Catalog.

(** ** The request before the routes, and the response on the wire *)

(** What [express.json()] (line 10, before every route) makes of a request
    body: the value it puts in [req.body], or the error it raises, which
    Express answers itself with the error's status (400 for malformed JSON,
    413 for a body over the size limit) and an error page. *)
Inductive BodyParse : Type :=
| Parsed (body : JSValue)
| Rejected (status : N) (page : string).

(** A request as it reaches the application. *)
Record HttpRequest : Type := {
  http_authorization : option string;
  http_params_id : string;
  http_body : BodyParse
}.

(** The application: the body parser, then the routing table. *)
Definition serve (rt : Runtime) (env : Env) (r : Route) (hreq : HttpRequest)
    : Store -> Response * Store :=
  fun st =>
    match http_body hreq with
    | Rejected code page => ({| status := code; payload := Text page |}, st)
    | Parsed b =>
        app rt env r
          {| authorization := http_authorization hreq;
             params_id := http_params_id hreq;
             body := b; req_userId := None |} st
    end.





(** * Properties *)

(** ** Strings *)

Lemma prefix_append (p t : string) : String.prefix p (p ++ t) = true.
Proof.
  induction p as [|c p IH]; simpl.
  - destruct t; reflexivity.
  - destruct (ascii_dec c c) as [_|ne]; [exact IH | contradiction].
Qed.

Lemma slice_append (p t : string) : slice (p ++ t) (String.length p) = t.
Proof.
  induction p as [|c p IH]; simpl; [reflexivity | exact IH].
Qed.

Lemma prefix_slice (p s : string) :
  String.prefix p s = true -> s = p ++ slice s (String.length p).
Proof.
  revert s; induction p as [|c p IH]; intros s H.
  - reflexivity.
  - destruct s as [|d s]; simpl in *; [discriminate|].
    destruct (ascii_dec c d) as [->|]; [|discriminate].
    f_equal. apply IH, H.
Qed.

Lemma bearer_token_append (t : string) : bearer_token ("Bearer " ++ t) = Some t.
Proof.
  unfold bearer_token, startsWith.
  rewrite prefix_append. f_equal.
Qed.

Lemma bearer_token_inv (auth t : string) :
  bearer_token auth = Some t -> auth = "Bearer " ++ t.
Proof.
  unfold bearer_token, startsWith.
  destruct (String.prefix "Bearer " auth) eqn:E; [|discriminate].
  intros [= <-]. apply (prefix_slice "Bearer " auth E).
Qed.

Lemma eqb_empty_false (t : string) : t <> "" -> String.eqb t "" = false.
Proof. intros H. apply String.eqb_neq, H. Qed.

(** ** The middleware *)

Section Middleware.
Variable rt : Runtime.
Variable env : Env.

(** A header of the form [Bearer <token>] with the token verified. *)
Lemma authUser_accepts (next : Handler) (req : Request) (st : Store)
    (tok : string) (decoded : Decoded) :
  authorization req = Some ("Bearer " ++ tok) ->
  tok <> "" ->
  verifyToken rt env tok = Ok decoded ->
  authUser rt env next req st = next (set_userId req (decoded_id decoded)) st.
Proof.
  intros Hauth Htok Hver. unfold authUser.
  rewrite Hauth. cbn [header_or_empty].
  rewrite bearer_token_append, (eqb_empty_false _ Htok), Hver.
  reflexivity.
Qed.

Lemma authUser_rejects_invalid (next : Handler) (req : Request) (st : Store)
    (tok : string) (e : Exn) :
  authorization req = Some ("Bearer " ++ tok) ->
  tok <> "" ->
  verifyToken rt env tok = Throw e ->
  authUser rt env next req st = (json 401 (Message "Invalid token"), st).
Proof.
  intros Hauth Htok Hver. unfold authUser.
  rewrite Hauth. cbn [header_or_empty].
  rewrite bearer_token_append, (eqb_empty_false _ Htok), Hver.
  reflexivity.
Qed.

Lemma authUser_rejects_missing (next : Handler) (req : Request) (st : Store) :
  (forall tok, tok <> "" -> authorization req <> Some ("Bearer " ++ tok)) ->
  authUser rt env next req st = (json 401 (Message "No token provided"), st).
Proof.
  intros Hnone. unfold authUser.
  destruct (bearer_token (header_or_empty (authorization req))) as [t|] eqn:Hb;
    [|reflexivity].
  destruct (String.eqb_spec t "") as [->|Hne]; [reflexivity|].
  exfalso. apply (Hnone t Hne).
  apply bearer_token_inv in Hb.
  destruct (authorization req) as [a|]; cbn [header_or_empty] in Hb.
  - now rewrite Hb.
  - discriminate.
Qed.

End Middleware.

(** C4: [authUser] answers 401 "No token provided" when the Authorization
    header is absent or not of the form [Bearer <token>]; otherwise 401
    "Invalid token" when the token does not verify; otherwise it calls the
    handler on the request with [userId] set to the decoded id.  In the two
    rejections the store is returned as it was, and the handler gets the
    store as it was. *)
Theorem authUser_contract (rt : Runtime) (env : Env) (next : Handler)
    (req : Request) (st : Store) :
  ((forall tok, tok <> "" -> authorization req <> Some ("Bearer " ++ tok)) ->
   authUser rt env next req st = (json 401 (Message "No token provided"), st))
  /\
  (forall tok, tok <> "" -> authorization req = Some ("Bearer " ++ tok) ->
   match verifyToken rt env tok with
   | Throw _ =>
       authUser rt env next req st = (json 401 (Message "Invalid token"), st)
   | Ok decoded =>
       authUser rt env next req st = next (set_userId req (decoded_id decoded)) st
       /\ authorization (set_userId req (decoded_id decoded)) = authorization req
       /\ params_id (set_userId req (decoded_id decoded)) = params_id req
       /\ body (set_userId req (decoded_id decoded)) = body req
       /\ req_userId (set_userId req (decoded_id decoded)) = Some (decoded_id decoded)
   end).
Proof.
  split.
  - apply authUser_rejects_missing.
  - intros tok Htok Hauth.
    destruct (verifyToken rt env tok) as [decoded|e] eqn:Hver.
    + split; [|repeat split].
      apply (authUser_accepts rt env next req st tok decoded Hauth Htok Hver).
    + apply (authUser_rejects_invalid rt env next req st tok e Hauth Htok Hver).
Qed.

Lemma authUser_contract_witness :
  (authUser Reference.runtime Sample.env (create_order Reference.runtime Sample.env)
     (Sample.request (Some "Basic dXNlcjpwYXNz") "" JUndefined) Sample.store
   = (json 401 (Message "No token provided"), Sample.store))
  /\
  (authUser Reference.runtime Sample.env (create_order Reference.runtime Sample.env)
     (Sample.request (Some "Bearer 1.605800.1") "" JUndefined) Sample.store
   = (json 401 (Message "Invalid token"), Sample.store)).
Proof.
  split.
  - apply (proj1 (authUser_contract Reference.runtime Sample.env
                    (create_order Reference.runtime Sample.env)
                    (Sample.request (Some "Basic dXNlcjpwYXNz") "" JUndefined)
                    Sample.store)).
    intros tok _ H. discriminate H.
  - exact (proj2 (authUser_contract Reference.runtime Sample.env
                    (create_order Reference.runtime Sample.env)
                    (Sample.request (Some "Bearer 1.605800.1") "" JUndefined)
                    Sample.store)
             "1.605800.1" ltac:(discriminate) eq_refl).
Defined.

(** Once the body parser has let it through, a [POST /api/orders] request
    with no Authorization header, or one that is not of the form
    [Bearer <token>], is answered 401 and the store
    (its orders included) is left as it was. *)
Theorem orders_without_bearer_rejected (rt : Runtime) (env : Env)
    (req : Request) (st : Store) :
  (forall tok, tok <> "" -> authorization req <> Some ("Bearer " ++ tok)) ->
  let (res, st') := app rt env POST_orders req st in
  status res = 401%N /\ orders st' = orders st /\ st' = st.
Proof.
  intros Hnone. cbn [app].
  rewrite (authUser_rejects_missing rt env (create_order rt env) req st Hnone).
  repeat split.
Qed.

Lemma orders_without_bearer_rejected_witness :
  let (res, st') :=
    app Reference.runtime Sample.env POST_orders
      (Sample.request None "" (JObj [("items", JArr Sample.two_items)]))
      Sample.store in
  status res = 401%N /\ orders st' = orders Sample.store /\ st' = Sample.store.
Proof.
  apply (orders_without_bearer_rejected Reference.runtime Sample.env
           (Sample.request None "" (JObj [("items", JArr Sample.two_items)]))
           Sample.store).
  intros tok _ H. discriminate H.
Defined.

(** ** Orders *)

Section Orders.
Variable rt : Runtime.
Variable env : Env.

(** What the handler of [POST /api/orders] does with a non-empty array. *)
Lemma create_order_run (req : Request) (st : Store) (elems : list JSValue) :
  get (body req) "items" = Ok (JArr elems) ->
  elems <> [] ->
  create_order rt env req st =
  match reduce rt elems PrimFloat.zero with
  | Throw _ => (server_error, st)
  | Ok total =>
      match validateOrder rt (req_userId req) elems total with
      | None => (server_error, logged OrderCreate st)
      | Some doc =>
          if store_fails env OrderCreate
          then (server_error, logged OrderCreate st)
          else
            let order := new_order env (next_id st) doc in
            (json 201 (OrderDoc order), insert_order order (logged OrderCreate st))
      end
  end.
Proof.
  intros Hitems Hne.
  unfold create_order, try_catch, bind, lift. rewrite Hitems.
  destruct elems as [|it rest]; [contradiction|].
  cbn [Array_isArray elements negb orb List.length Nat.eqb].
  destruct (reduce rt (it :: rest) PrimFloat.zero) as [total|e]; [|reflexivity].
  unfold Order_create, bind, record_call, round_trip, throw, ret.
  destruct (validateOrder rt (req_userId req) (it :: rest) total) as [doc|];
    [|reflexivity].
  destruct (store_fails env OrderCreate); reflexivity.
Qed.

(** The handler never reads the products. *)
Lemma create_order_ignores_products (req : Request) (st : Store) (ps : list Product) :
  fst (create_order rt env req (with_products st ps)) = fst (create_order rt env req st).
Proof.
  unfold create_order, try_catch, bind, lift.
  destruct (get (body req) "items") as [items|e]; [|reflexivity].
  destruct (negb (Array_isArray items) || Nat.eqb (List.length (elements items)) 0)%bool;
    [reflexivity|].
  destruct (reduce rt (elements items) PrimFloat.zero) as [total|e]; [|reflexivity].
  unfold Order_create, bind, record_call, round_trip, throw, ret.
  destruct (validateOrder rt (req_userId req) (elements items) total) as [doc|];
    [|reflexivity].
  destruct (store_fails env OrderCreate); reflexivity.
Qed.

(** [reduce] adds the amounts of the items, left to right. *)
Lemma add_line_amount (acc : float) (it : JSValue) (acc' : float) :
  add_line rt acc it = Ok acc' ->
  exists a, amount rt it = Ok a /\ acc' = (acc + a)%float.
Proof.
  unfold add_line, amount.
  destruct (get it "price") as [price|]; [|discriminate].
  destruct (Number rt price) as [p|]; [|discriminate].
  destruct (get it "quantity") as [quantity|]; [|discriminate].
  destruct (Number rt quantity) as [q|]; [|discriminate].
  intros [= <-]. exists (p * q)%float. split; reflexivity.
Qed.

Lemma reduce_amounts (elems : list JSValue) :
  forall acc total,
    reduce rt elems acc = Ok total ->
    exists amounts,
      Forall2 (fun it a => amount rt it = Ok a) elems amounts
      /\ total = List.fold_left PrimFloat.add amounts acc.
Proof.
  induction elems as [|it rest IH]; intros acc total H; cbn [reduce] in H.
  - injection H as <-. exists []. split; [constructor | reflexivity].
  - destruct (add_line rt acc it) as [acc'|] eqn:Hline; [|discriminate].
    destruct (add_line_amount _ _ _ Hline) as (a & Ha & ->).
    destruct (IH _ _ H) as (amounts & Hall & ->).
    exists (a :: amounts). split; [constructor; assumption | reflexivity].
Qed.

(** A value Mongoose casts to a number is the number [Number] makes of it. *)
Lemma castNumber_Number (v : JSValue) (x : float) :
  castNumber rt v = Some x -> Number rt v = Ok x.
Proof.
  destruct v as [| |[|]|y|s|l|l]; cbn [castNumber Number]; try discriminate.
  - now intros [= <-].
  - now intros [= <-].
  - destruct (PrimFloat.is_nan y); [discriminate|]. now intros [= <-].
  - destruct (String.eqb s ""); [discriminate|].
    destruct (PrimFloat.is_nan (StringToNumber rt s)); [discriminate|].
    now intros [= <-].
Qed.

Lemma castItems_prices (elems : list JSValue) :
  forall its,
    castItems rt elems = Some its ->
    Forall2 (fun it oi =>
               exists price, get it "price" = Ok price
                             /\ Number rt price = Ok (it_price oi)) elems its.
Proof.
  induction elems as [|it rest IH]; intros its H; cbn [castItems] in H.
  - injection H as <-. constructor.
  - destruct (castItem rt it) as [oi|] eqn:Hit; [|discriminate].
    destruct (castItems rt rest) as [ois|]; [|discriminate].
    injection H as <-. constructor; [|apply IH; reflexivity].
    unfold castItem in Hit. destruct it as [| | | | | |props]; try discriminate.
    destruct (castOwnId rt (lookup "_id" props)); [|discriminate].
    destruct (castRequiredObjectId rt (lookup "productId" props)); [|discriminate].
    destruct (castNumber rt (lookup "quantity" props)); [|discriminate].
    destruct (castNumber rt (lookup "price" props)) as [p|] eqn:Hp; [|discriminate].
    injection Hit as <-. exists (lookup "price" props). split; [reflexivity|].
    apply castNumber_Number, Hp.
Qed.

End Orders.

Lemma validateOrder_inv (rt : Runtime) (userId : option ObjectId)
    (elems : list JSValue) (total : float) (doc : ObjectId * list OrderItem * float) :
  validateOrder rt userId elems total = Some doc ->
  exists uid its,
    userId = Some uid /\ castItems rt elems = Some its
    /\ PrimFloat.is_nan total = false /\ doc = (uid, its, total).
Proof.
  unfold validateOrder.
  destruct userId as [uid|]; [|discriminate].
  destruct (castItems rt elems) as [its|]; [|discriminate].
  cbn [castNumber]. destruct (PrimFloat.is_nan total); [discriminate|].
  intros [= <-]. exists uid, its. repeat split.
Qed.

(** For an authenticated [POST /api/orders] request whose body has a
    non-empty [items] array, either the order is created -- the answer is
    201 with the order, the order is appended to the stored orders, its
    total is the sum over the submitted items of price times quantity, and
    each stored item keeps the price the client sent -- or the answer is
    the 500 of the catch block and no order is stored.  The answer does not
    depend on the products in the store. *)
Theorem order_total_is_sum (rt : Runtime) (env : Env) (req : Request) (st : Store)
    (tok : string) (decoded : Decoded) (elems : list JSValue) :
  authorization req = Some ("Bearer " ++ tok) ->
  tok <> "" ->
  verifyToken rt env tok = Ok decoded ->
  get (body req) "items" = Ok (JArr elems) ->
  elems <> [] ->
  let (res, st') := app rt env POST_orders req st in
  ((status res = 201%N /\
    exists order amounts,
      payload res = OrderDoc order
      /\ orders st' = (orders st ++ [order])%list
      /\ Forall2 (fun it a => amount rt it = Ok a) elems amounts
      /\ o_total order = sum amounts
      /\ Forall2 (fun it oi =>
                    exists price, get it "price" = Ok price
                                  /\ Number rt price = Ok (it_price oi))
                 elems (o_items order))
   \/ (res = server_error /\ orders st' = orders st))
  /\ (forall ps, fst (app rt env POST_orders req (with_products st ps)) = res).
Proof.
  intros Hauth Htok Hver Hitems Hne.
  destruct (app rt env POST_orders req st) as [res st'] eqn:Hrun.
  cbn [app] in *. split.
  - rewrite (authUser_accepts rt env _ req st tok decoded Hauth Htok Hver) in Hrun.
    rewrite (create_order_run rt env (set_userId req (decoded_id decoded)) st elems
               Hitems Hne) in Hrun.
    destruct (reduce rt elems PrimFloat.zero) as [total|e] eqn:Hred.
    2:{ injection Hrun as <- <-. right. split; reflexivity. }
    destruct (validateOrder rt _ elems total) as [doc|] eqn:Hval.
    2:{ injection Hrun as <- <-. right. split; reflexivity. }
    destruct (store_fails env OrderCreate).
    { injection Hrun as <- <-. right. split; reflexivity. }
    injection Hrun as <- <-. left. split; [reflexivity|].
    destruct (validateOrder_inv _ _ _ _ _ Hval) as (uid & its & _ & Hits & _ & ->).
    destruct (reduce_amounts rt elems _ _ Hred) as (amounts & Hall & Hsum).
    exists (new_order env (next_id st) (uid, its, total)), amounts.
    repeat split; try assumption.
    apply castItems_prices, Hits.
  - intros ps.
    rewrite (authUser_accepts rt env _ req _ tok decoded Hauth Htok Hver).
    rewrite create_order_ignores_products.
    rewrite <- (authUser_accepts rt env _ req st tok decoded Hauth Htok Hver).
    now rewrite Hrun.
Qed.

(** X1: an order whose document validates is created when the store answers:
    the answer is 201 with the new order, which is appended to the stored
    orders under the next identifier. *)
Lemma create_order_created (rt : Runtime) (env : Env) (req : Request) (st : Store)
    (elems : list JSValue) (total : float) (doc : ObjectId * list OrderItem * float) :
  get (body req) "items" = Ok (JArr elems) ->
  elems <> [] ->
  reduce rt elems PrimFloat.zero = Ok total ->
  validateOrder rt (req_userId req) elems total = Some doc ->
  store_fails env OrderCreate = false ->
  create_order rt env req st =
  (json 201 (OrderDoc (new_order env (next_id st) doc)),
   insert_order (new_order env (next_id st) doc) (logged OrderCreate st)).
Proof.
  intros Hitems Hne Hred Hval Hup.
  rewrite (create_order_run rt env req st elems Hitems Hne), Hred, Hval, Hup.
  reflexivity.
Qed.

Lemma create_order_created_witness :
  create_order Reference.runtime Sample.env
    (set_userId (Sample.order_request Sample.two_items) 1%N) Sample.store
  = (json 201
       (OrderDoc
          (new_order Sample.env 2%N
             (1%N,
              [{| it_productId := 352125166730063718056674663%N;
                  it_quantity := 2%float; it_price := 10%float |};
               {| it_productId := 352125166730063718056674664%N;
                  it_quantity := 1%float; it_price := 5%float |}],
              25%float))),
     insert_order
       (new_order Sample.env 2%N
          (1%N,
           [{| it_productId := 352125166730063718056674663%N;
               it_quantity := 2%float; it_price := 10%float |};
            {| it_productId := 352125166730063718056674664%N;
               it_quantity := 1%float; it_price := 5%float |}],
           25%float))
       (logged OrderCreate Sample.store)).
Proof.
  apply (create_order_created Reference.runtime Sample.env
           (set_userId (Sample.order_request Sample.two_items) 1%N) Sample.store
           Sample.two_items 25%float).
  - reflexivity.
  - discriminate.
  - vm_compute. reflexivity.
  - vm_compute. reflexivity.
  - reflexivity.
Defined.

Lemma sample_token_verifies :
  verifyToken Reference.runtime Sample.env Sample.token
  = Ok {| decoded_id := 1%N; decoded_exp := 605800%N |}.
Proof. vm_compute. reflexivity. Qed.

Lemma sample_token_nonempty : Sample.token <> "".
Proof. vm_compute. discriminate. Qed.

Lemma order_total_is_sum_witness :
  let (res, st') :=
    app Reference.runtime Sample.env POST_orders
      (Sample.order_request Sample.two_items) Sample.store in
  ((status res = 201%N /\
    exists order amounts,
      payload res = OrderDoc order
      /\ orders st' = (orders Sample.store ++ [order])%list
      /\ Forall2 (fun it a => amount Reference.runtime it = Ok a)
           Sample.two_items amounts
      /\ o_total order = sum amounts
      /\ Forall2 (fun it oi =>
                    exists price, get it "price" = Ok price
                                  /\ Number Reference.runtime price = Ok (it_price oi))
                 Sample.two_items (o_items order))
   \/ (res = server_error /\ orders st' = orders Sample.store))
  /\ (forall ps,
        fst (app Reference.runtime Sample.env POST_orders
               (Sample.order_request Sample.two_items)
               (with_products Sample.store ps)) = res).
Proof.
  apply (order_total_is_sum Reference.runtime Sample.env
           (Sample.order_request Sample.two_items) Sample.store
           Sample.token {| decoded_id := 1%N; decoded_exp := 605800%N |}
           Sample.two_items).
  - reflexivity.
  - vm_compute. discriminate.
  - vm_compute. reflexivity.
  - reflexivity.
  - discriminate.
Defined.

(** The specification's example: items [{price:10,quantity:2}] and
    [{price:5,quantity:1}] give an order of total 25, answered 201. *)
Example order_of_two_items :
  let (res, st') :=
    app Reference.runtime Sample.env POST_orders
      (Sample.order_request Sample.two_items) Sample.store in
  status res = 201%N
  /\ (exists order, payload res = OrderDoc order /\ o_total order = 25%float
                    /\ orders st' = [order]).
Proof.
  vm_compute. split; [reflexivity|]. eexists. repeat split.
Qed.

(** ** NaN in binary64 arithmetic *)





Section NaNTotals.
Variable rt : Runtime.



End NaNTotals.



(** ** Registration and login *)

Section Accounts.
Variable rt : Runtime.
Variable env : Env.

(** What [register] does once the three fields are present. *)
Lemma register_run (req : Request) (st : Store) (name email password : JSValue) :
  get (body req) "name" = Ok name ->
  get (body req) "email" = Ok email ->
  get (body req) "password" = Ok password ->
  truthy name = true -> truthy email = true -> truthy password = true ->
  register rt env req st =
  try_catch
    (exists_ <- User_findOne rt env email ;;
     match exists_ with
     | Some _ => ret (json 409 (Message "Email already registered"))
     | None =>
         hash <- lift (bcrypt_hash_js rt env password) ;;
         user <- User_create rt env name email hash ;;
         ret (session_for rt env user)
     end)
    (fun _ => server_error) st.
Proof.
  intros Hn He Hp Tn Te Tp.
  unfold register, try_catch, bind at 1 2 3, lift at 1 2 3.
  rewrite Hn, He, Hp, Tn, Te, Tp. reflexivity.
Qed.

(** [User.findOne] when the condition casts and the store answers. *)
Lemma User_findOne_run (email : JSValue) (cond : string -> bool) (st : Store) :
  email_condition rt email = Ok cond ->
  store_fails env UserFindOne = false ->
  User_findOne rt env email st =
  (Ok (List.find (fun u => cond (u_email u)) (users st)), logged UserFindOne st).
Proof.
  intros Hc Hup.
  unfold User_findOne, bind, record_call, lift, round_trip, read_store, ret.
  rewrite Hc, Hup. reflexivity.
Qed.

(** [User.findOne] never writes a collection. *)
Lemma User_findOne_reads (email : JSValue) (st : Store) :
  snd (User_findOne rt env email st) = logged UserFindOne st.
Proof.
  unfold User_findOne, bind, record_call, lift, round_trip, read_store, ret, throw.
  destruct (email_condition rt email); [|reflexivity].
  destruct (store_fails env UserFindOne); reflexivity.
Qed.

(** What [login] does once the two fields are present. *)
Lemma login_run (req : Request) (st : Store) (email password : JSValue) :
  get (body req) "email" = Ok email ->
  get (body req) "password" = Ok password ->
  truthy email = true -> truthy password = true ->
  login rt env req st =
  try_catch
    (user <- User_findOne rt env email ;;
     match user with
     | None => ret (json 401 (Message "Invalid credentials"))
     | Some user =>
         ok <- lift (bcrypt_compare_js rt password (u_password user)) ;;
         if negb ok then ret (json 401 (Message "Invalid credentials"))
         else ret (session_for rt env user)
     end)
    (fun _ => server_error) st.
Proof.
  intros He Hp Te Tp.
  unfold login, try_catch, bind at 1 2, lift at 1 2.
  rewrite He, Hp, Te, Tp. reflexivity.
Qed.

End Accounts.

(** C8 (as amended): when [Order.create] or [User.create] fails because a
    required field is absent or does not cast -- an order item without its
    [productId], say -- the handler's catch block answers 500 "Server
    error", not 400: 400 is only the answer of the handlers' own checks of
    the request. *)
Theorem create_validation_failure_is_500 (rt : Runtime) (env : Env) :
  (forall req st tok decoded elems total,
      authorization req = Some ("Bearer " ++ tok) ->
      tok <> "" ->
      verifyToken rt env tok = Ok decoded ->
      get (body req) "items" = Ok (JArr elems) ->
      elems <> [] ->
      reduce rt elems PrimFloat.zero = Ok total ->
      validateOrder rt (Some (decoded_id decoded)) elems total = None ->
      app rt env POST_orders req st = (server_error, logged OrderCreate st))
  /\
  (forall req st name email password cond hash,
      get (body req) "name" = Ok name ->
      get (body req) "email" = Ok email ->
      get (body req) "password" = Ok password ->
      truthy name = true -> truthy email = true -> truthy password = true ->
      email_condition rt email = Ok cond ->
      store_fails env UserFindOne = false ->
      List.find (fun u => cond (u_email u)) (users st) = None ->
      bcrypt_hash_js rt env password = Ok hash ->
      castRequiredString rt name = None \/ castRequiredString rt email = None ->
      app rt env POST_register req st
      = (server_error, logged UserCreate (logged UserFindOne st))).
Proof.
  split.
  - intros req st tok decoded elems total Hauth Htok Hver Hitems Hne Hred Hval.
    cbn [app].
    rewrite (authUser_accepts rt env _ req st tok decoded Hauth Htok Hver).
    rewrite (create_order_run rt env (set_userId req (decoded_id decoded)) st elems
               Hitems Hne).
    rewrite Hred. cbn [req_userId set_userId]. rewrite Hval. reflexivity.
  - intros req st name email password cond hash Hn He Hp Tn Te Tp Hc Hup Hfind Hh Hcast.
    cbn [app].
    rewrite (register_run rt env req st name email password Hn He Hp Tn Te Tp).
    unfold try_catch, bind at 1.
    rewrite (User_findOne_run rt env email cond st Hc Hup), Hfind.
    unfold bind at 1, lift. rewrite Hh.
    unfold bind at 1, User_create, bind at 1, record_call, throw.
    destruct Hcast as [-> | Hcast]; [reflexivity|].
    rewrite Hcast. destruct (castRequiredString rt name); reflexivity.
Qed.

Lemma create_validation_failure_is_500_witness :
  (app Reference.runtime Sample.env POST_orders
     (Sample.order_request [JObj [("quantity", JNum 1%float); ("price", JNum 10%float)]])
     Sample.store
   = (server_error, logged OrderCreate Sample.store))
  /\
  (app Reference.runtime Sample.env POST_register
     (Sample.request None ""
        (JObj [("name", JObj []); ("email", JStr "bob@example.com");
               ("password", JStr "pw")]))
     Sample.store
   = (server_error, logged UserCreate (logged UserFindOne Sample.store))).
Proof.
  split.
  - apply (proj1 (create_validation_failure_is_500 Reference.runtime Sample.env)
             _ _ Sample.token {| decoded_id := 1%N; decoded_exp := 605800%N |}
             [JObj [("quantity", JNum 1%float); ("price", JNum 10%float)]]
             10%float).
    + reflexivity.
    + exact sample_token_nonempty.
    + exact sample_token_verifies.
    + reflexivity.
    + discriminate.
    + vm_compute. reflexivity.
    + vm_compute. reflexivity.
  - apply (proj2 (create_validation_failure_is_500 Reference.runtime Sample.env)
             _ _ (JObj []) (JStr "bob@example.com") (JStr "pw")
             (String.eqb "bob@example.com")
             (Reference.salted_hash 5%N "pw"));
      try reflexivity.
    left. reflexivity.
Defined.

(** An authenticated order whose only item has no [productId]: the total is
    computed (10), [Order.create] is called and fails on the missing required
    field -- the same item with a [productId] validates -- and the answer is
    500, not 400. *)
Lemma missing_productId_answers_500 :
  let (res, st') :=
    app Reference.runtime Sample.env POST_orders
      (Sample.order_request [JObj [("quantity", JNum 1%float); ("price", JNum 10%float)]])
      Sample.store in
  reduce Reference.runtime
    [JObj [("quantity", JNum 1%float); ("price", JNum 10%float)]] PrimFloat.zero
  = Ok 10%float
  /\ validateOrder Reference.runtime (Some 1%N)
       [JObj [("quantity", JNum 1%float); ("price", JNum 10%float)]] 10%float = None
  /\ validateOrder Reference.runtime (Some 1%N)
       [Sample.item "0123456789abcdef01234567" 1%float 10%float] 10%float <> None
  /\ journal st' = OrderCreate :: journal Sample.store
  /\ status res = 500%N
  /\ status res <> 400%N.
Proof.
  vm_compute. repeat split; discriminate.
Qed.

(** ** Products *)

Lemma find_none_of_all_false {A} (f : A -> bool) (l : list A) :
  (forall x, In x l -> f x = false) -> List.find f l = None.
Proof.
  induction l as [|a l IH]; intros H; cbn [List.find]; [reflexivity|].
  rewrite (H a (or_introl eq_refl)). apply IH.
  intros x Hx. apply H. right. exact Hx.
Qed.

Section Products.
Variable rt : Runtime.
Variable env : Env.

(** An identifier that does not cast: the catch block answers. *)
Lemma get_product_malformed (req : Request) (st : Store) :
  castObjectId rt (JStr (params_id req)) = None ->
  get_product rt env req st
  = (json 400 (Message "Invalid ID"), logged ProductFindById st).
Proof.
  intros Hcast.
  unfold get_product, try_catch, bind, Product_findById, bind, record_call, throw.
  rewrite Hcast. reflexivity.
Qed.

(** An identifier that casts, with the store answering. *)
Lemma get_product_lookup (req : Request) (st : Store) (oid : ObjectId) :
  castObjectId rt (JStr (params_id req)) = Some oid ->
  store_fails env ProductFindById = false ->
  get_product rt env req st =
  (match List.find (fun p => N.eqb (p_id p) oid) (products st) with
   | None => json 404 (Message "Product not found")
   | Some p => json 200 (ProductDoc p)
   end, logged ProductFindById st).
Proof.
  intros Hcast Hup.
  unfold get_product, try_catch, bind, Product_findById, bind, record_call,
    round_trip, read_store, ret.
  rewrite Hcast, Hup. cbn [products logged].
  destruct (List.find (fun p => N.eqb (p_id p) oid) (products st)); reflexivity.
Qed.

(** An identifier that casts, with the store failing: the same catch block
    answers. *)
Lemma get_product_unreachable (req : Request) (st : Store) (oid : ObjectId) :
  castObjectId rt (JStr (params_id req)) = Some oid ->
  store_fails env ProductFindById = true ->
  get_product rt env req st
  = (json 400 (Message "Invalid ID"), logged ProductFindById st).
Proof.
  intros Hcast Hdown.
  unfold get_product, try_catch, bind, Product_findById, bind, record_call,
    round_trip, throw.
  rewrite Hcast, Hdown. reflexivity.
Qed.

Lemma get_products_unreachable (req : Request) (st : Store) :
  store_fails env ProductFind = true ->
  get_products env req st = (server_error, logged ProductFind st).
Proof.
  intros Hdown.
  unfold get_products, try_catch, bind, Product_find, bind, record_call,
    round_trip, throw.
  rewrite Hdown. reflexivity.
Qed.

End Products.

(** On [GET /api/products/:id], an identifier that does not cast to an
    ObjectId is answered 400, and one that casts and is the id of no stored
    product is answered 404 (the store answering the lookup); the first is
    never answered 404 and the second never 400. *)
Theorem product_lookup_failures (rt : Runtime) (env : Env) (req : Request) (st : Store) :
  (castObjectId rt (JStr (params_id req)) = None ->
   fst (app rt env GET_product req st) = json 400 (Message "Invalid ID")
   /\ status (fst (app rt env GET_product req st)) <> 404%N)
  /\
  (forall oid,
      castObjectId rt (JStr (params_id req)) = Some oid ->
      (forall p, In p (products st) -> p_id p <> oid) ->
      store_fails env ProductFindById = false ->
      fst (app rt env GET_product req st) = json 404 (Message "Product not found")
      /\ status (fst (app rt env GET_product req st)) <> 400%N).
Proof.
  cbn [app]. split.
  - intros Hcast. rewrite (get_product_malformed rt env req st Hcast).
    split; [reflexivity | discriminate].
  - intros oid Hcast Hnone Hup.
    rewrite (get_product_lookup rt env req st oid Hcast Hup).
    rewrite find_none_of_all_false.
    + split; [reflexivity | discriminate].
    + intros p Hp. apply N.eqb_neq, Hnone, Hp.
Qed.

Lemma product_lookup_failures_witness :
  (fst (app Reference.runtime Sample.env GET_product
          (Sample.request None "not-an-id" JUndefined) Sample.store)
   = json 400 (Message "Invalid ID"))
  /\
  (fst (app Reference.runtime Sample.env GET_product
          (Sample.request None "0123456789abcdef01234567" JUndefined) Sample.store)
   = json 404 (Message "Product not found")).
Proof.
  split.
  - apply (proj1 (product_lookup_failures Reference.runtime Sample.env
                    (Sample.request None "not-an-id" JUndefined) Sample.store)).
    reflexivity.
  - apply (proj2 (product_lookup_failures Reference.runtime Sample.env
                    (Sample.request None "0123456789abcdef01234567" JUndefined)
                    Sample.store) 352125166730063718056674663%N).
    + vm_compute. reflexivity.
    + intros p [].
    + reflexivity.
Defined.

(** With the store failing, the other routes that reach it answer 500. *)
Lemma register_unreachable (rt : Runtime) (env : Env) (req : Request) (st : Store)
    (name email password : JSValue) :
  get (body req) "name" = Ok name ->
  get (body req) "email" = Ok email ->
  get (body req) "password" = Ok password ->
  truthy name = true -> truthy email = true -> truthy password = true ->
  store_fails env UserFindOne = true ->
  fst (register rt env req st) = server_error.
Proof.
  intros Hn He Hp Tn Te Tp Hdown.
  rewrite (register_run rt env req st name email password Hn He Hp Tn Te Tp).
  unfold try_catch, bind at 1, User_findOne, bind, record_call, lift, round_trip, throw.
  rewrite Hdown. destruct (email_condition rt email); reflexivity.
Qed.

Lemma login_unreachable (rt : Runtime) (env : Env) (req : Request) (st : Store)
    (email password : JSValue) :
  get (body req) "email" = Ok email ->
  get (body req) "password" = Ok password ->
  truthy email = true -> truthy password = true ->
  store_fails env UserFindOne = true ->
  fst (login rt env req st) = server_error.
Proof.
  intros He Hp Te Tp Hdown.
  rewrite (login_run rt env req st email password He Hp Te Tp).
  unfold try_catch, bind at 1, User_findOne, bind, record_call, lift, round_trip, throw.
  rewrite Hdown. destruct (email_condition rt email); reflexivity.
Qed.

Lemma create_order_unreachable (rt : Runtime) (env : Env) (req : Request) (st : Store)
    (elems : list JSValue) :
  get (body req) "items" = Ok (JArr elems) ->
  elems <> [] ->
  store_fails env OrderCreate = true ->
  fst (create_order rt env req st) = server_error.
Proof.
  intros Hitems Hne Hdown.
  rewrite (create_order_run rt env req st elems Hitems Hne), Hdown.
  destruct (reduce rt elems PrimFloat.zero) as [total|]; [|reflexivity].
  destruct (validateOrder rt (req_userId req) elems total); reflexivity.
Qed.

(** C9, the defect: with the store failing, every route that reaches the
    store answers 500 "Server error" from its catch block --
    [GET /api/products], registration and login with their fields present,
    an authenticated order with a non-empty [items] array -- except
    [GET /api/products/:id], whose catch block answers 400 "Invalid ID" for
    an identifier that is well formed. *)
Theorem store_failure_on_product_lookup (rt : Runtime) (env : Env)
    (req : Request) (st : Store) (oid : ObjectId) :
  (forall op, store_fails env op = true) ->
  castObjectId rt (JStr (params_id req)) = Some oid ->
  fst (app rt env GET_product req st) = json 400 (Message "Invalid ID")
  /\ fst (app rt env GET_products req st) = json 500 (Message "Server error")
  /\ (forall name email password,
        get (body req) "name" = Ok name ->
        get (body req) "email" = Ok email ->
        get (body req) "password" = Ok password ->
        truthy name = true -> truthy email = true -> truthy password = true ->
        fst (app rt env POST_register req st) = json 500 (Message "Server error")
        /\ fst (app rt env POST_login req st) = json 500 (Message "Server error"))
  /\ (forall tok decoded elems,
        authorization req = Some ("Bearer " ++ tok) ->
        tok <> "" ->
        verifyToken rt env tok = Ok decoded ->
        get (body req) "items" = Ok (JArr elems) ->
        elems <> [] ->
        fst (app rt env POST_orders req st) = json 500 (Message "Server error")).
Proof.
  intros Hdown Hcast. cbn [app].
  rewrite (get_product_unreachable rt env req st oid Hcast (Hdown ProductFindById)).
  rewrite (get_products_unreachable env req st (Hdown ProductFind)).
  split; [reflexivity|]. split; [reflexivity|]. split.
  - intros name email password Hn He Hp Tn Te Tp. split.
    + exact (register_unreachable rt env req st name email password
               Hn He Hp Tn Te Tp (Hdown UserFindOne)).
    + exact (login_unreachable rt env req st email password
               He Hp Te Tp (Hdown UserFindOne)).
  - intros tok decoded elems Hauth Htok Hver Hitems Hne.
    rewrite (authUser_accepts rt env _ req st tok decoded Hauth Htok Hver).
    exact (create_order_unreachable rt env (set_userId req (decoded_id decoded)) st
             elems Hitems Hne (Hdown OrderCreate)).
Qed.

Lemma store_failure_on_product_lookup_witness :
  fst (app Reference.runtime Sample.env_down GET_product
         (Sample.request None "0123456789abcdef01234567" JUndefined) Sample.store)
  = json 400 (Message "Invalid ID")
  /\ fst (app Reference.runtime Sample.env_down GET_products
            (Sample.request None "0123456789abcdef01234567" JUndefined) Sample.store)
     = json 500 (Message "Server error").
Proof.
  destruct (store_failure_on_product_lookup Reference.runtime Sample.env_down
              (Sample.request None "0123456789abcdef01234567" JUndefined)
              Sample.store 352125166730063718056674663%N
              (fun op => eq_refl) eq_refl) as (H400 & H500 & _).
  split; assumption.
Defined.

(** ** Login failures *)

Section LoginFailures.
Variable rt : Runtime.
Variable env : Env.
Hypothesis store_answers : store_fails env UserFindOne = false.

Lemma login_unknown_email (req : Request) (st : Store) (email password : JSValue) :
  credentials_present req email password ->
  unknown_email rt email st ->
  login rt env req st = (invalid_credentials, logged UserFindOne st).
Proof.
  intros (He & Hp & Te & Tp) (cond & Hc & Hfind).
  rewrite (login_run rt env req st email password He Hp Te Tp).
  unfold try_catch, bind.
  rewrite (User_findOne_run rt env email cond st Hc store_answers), Hfind.
  reflexivity.
Qed.

Lemma login_wrong_password (req : Request) (st : Store) (email password : JSValue) :
  credentials_present req email password ->
  wrong_password rt email password st ->
  login rt env req st = (invalid_credentials, logged UserFindOne st).
Proof.
  intros (He & Hp & Te & Tp) (cond & user & Hc & Hfind & Hcmp).
  rewrite (login_run rt env req st email password He Hp Te Tp).
  unfold try_catch, bind, lift.
  rewrite (User_findOne_run rt env email cond st Hc store_answers), Hfind, Hcmp.
  reflexivity.
Qed.

End LoginFailures.

(** For [POST /api/auth/login] requests with email and password present,
    one whose email matches no stored user and one whose password
    [bcrypt.compare] answers false for get the same response: status 401
    with the body [{ message: 'Invalid credentials' }] (the store answering
    the lookup). *)
Theorem login_failures_indistinguishable (rt : Runtime) (env : Env)
    (req1 req2 : Request) (st1 st2 : Store) (email1 password1 email2 password2 : JSValue) :
  store_fails env UserFindOne = false ->
  credentials_present req1 email1 password1 ->
  unknown_email rt email1 st1 ->
  credentials_present req2 email2 password2 ->
  wrong_password rt email2 password2 st2 ->
  fst (app rt env POST_login req1 st1) = fst (app rt env POST_login req2 st2)
  /\ status (fst (app rt env POST_login req1 st1)) = 401%N
  /\ payload (fst (app rt env POST_login req1 st1)) = Message "Invalid credentials"
  /\ users (snd (app rt env POST_login req1 st1)) = users st1
  /\ users (snd (app rt env POST_login req2 st2)) = users st2.
Proof.
  intros Hup Hp1 Hu Hp2 Hw. cbn [app].
  rewrite (login_unknown_email rt env Hup req1 st1 email1 password1 Hp1 Hu).
  rewrite (login_wrong_password rt env Hup req2 st2 email2 password2 Hp2 Hw).
  repeat split.
Qed.

Lemma login_failures_indistinguishable_witness :
  fst (app Reference.runtime Sample.env POST_login
         (Sample.request None ""
            (JObj [("email", JStr "bob@example.com"); ("password", JStr "s3cret")]))
         Sample.store)
  = fst (app Reference.runtime Sample.env POST_login
           (Sample.request None ""
              (JObj [("email", JStr "ana@example.com"); ("password", JStr "wrong")]))
           Sample.store).
Proof.
  apply (login_failures_indistinguishable Reference.runtime Sample.env
           (Sample.request None ""
              (JObj [("email", JStr "bob@example.com"); ("password", JStr "s3cret")]))
           (Sample.request None ""
              (JObj [("email", JStr "ana@example.com"); ("password", JStr "wrong")]))
           Sample.store Sample.store
           (JStr "bob@example.com") (JStr "s3cret")
           (JStr "ana@example.com") (JStr "wrong")).
  - reflexivity.
  - repeat split.
  - exists (String.eqb "bob@example.com"). split; reflexivity.
  - repeat split.
  - exists (String.eqb "ana@example.com"), Sample.ana.
    split; [reflexivity|]. split; [reflexivity|]. vm_compute. reflexivity.
Defined.

(** The right password is accepted: the two failures above are not the only
    answers of the route. *)
Example login_accepts_right_password :
  status (fst (app Reference.runtime Sample.env POST_login
                 (Sample.request None ""
                    (JObj [("email", JStr "ana@example.com");
                           ("password", JStr "s3cret")]))
                 Sample.store)) = 200%N.
Proof. vm_compute. reflexivity. Qed.

(** ** Registration with an email already stored *)

Lemma email_taken_found (e : string) (us : list User) :
  email_taken e us = true ->
  exists u, List.find (fun u => String.eqb e (u_email u)) us = Some u.
Proof.
  unfold email_taken.
  induction us as [|u us IH]; cbn [List.existsb List.find]; [discriminate|].
  rewrite (String.eqb_sym e (u_email u)).
  destruct (String.eqb (u_email u) e); [intros _; now exists u | exact IH].
Qed.

Lemma NoDup_snoc {A} (l : list A) (a : A) :
  NoDup l -> ~ In a l -> NoDup (l ++ [a]).
Proof.
  induction l as [|b l IH]; intros Hnd Hnin; simpl.
  - constructor; [intros [] | constructor].
  - inversion Hnd as [|? ? Hb Hl]; subst. constructor.
    + rewrite in_app_iff. intros [Hin | [-> | []]].
      * exact (Hb Hin).
      * apply Hnin. now left.
    + apply IH; [exact Hl|]. intros Hin. apply Hnin. now right.
Qed.

Lemma email_not_taken (e : string) (us : list User) :
  email_taken e us = false -> ~ In e (List.map u_email us).
Proof.
  unfold email_taken. intros H Hin.
  apply in_map_iff in Hin. destruct Hin as (u & <- & Hu).
  assert (List.existsb (fun u0 => String.eqb (u_email u0) (u_email u)) us = true) as E.
  { apply existsb_exists. exists u. split; [exact Hu | apply String.eqb_refl]. }
  congruence.
Qed.

Section Registration.
Variable rt : Runtime.
Variable env : Env.

(** [User.create] either leaves the users as they are or appends one whose
    email no stored user has. *)
Lemma User_create_users (name email : JSValue) (hash : string) (st st' : Store)
    (r : result User) :
  User_create rt env name email hash st = (r, st') ->
  users st' = users st
  \/ exists user,
       users st' = (users st ++ [user])%list
       /\ email_taken (u_email user) (users st) = false.
Proof.
  unfold User_create, bind, record_call, round_trip, throw, ret.
  destruct (castRequiredString rt name) as [n|]; [|intros [= _ <-]; now left].
  destruct (castRequiredString rt email) as [e|]; [|intros [= _ <-]; now left].
  destruct (String.eqb hash ""); [intros [= _ <-]; now left|].
  destruct (store_fails env UserCreate); [intros [= _ <-]; now left|].
  cbn [users logged].
  destruct (email_taken e (users st)) eqn:Htaken; intros [= _ <-]; [now left|].
  right. eexists. split; [reflexivity | exact Htaken].
Qed.

Lemma register_users (req : Request) (st st' : Store) (res : Response) :
  register rt env req st = (res, st') ->
  users st' = users st
  \/ exists user,
       users st' = (users st ++ [user])%list
       /\ email_taken (u_email user) (users st) = false.
Proof.
  unfold register, try_catch, bind at 1 2 3, lift at 1 2 3.
  destruct (get (body req) "name") as [name|]; [|intros [= _ <-]; now left].
  destruct (get (body req) "email") as [email|]; [|intros [= _ <-]; now left].
  destruct (get (body req) "password") as [password|]; [|intros [= _ <-]; now left].
  destruct (negb (truthy name) || negb (truthy email) || negb (truthy password))%bool;
    [intros [= _ <-]; now left|].
  unfold bind at 1.
  pose proof (User_findOne_reads rt env email st) as Hread.
  destruct (User_findOne rt env email st) as [[[found|]|e] st1];
    cbn [snd] in Hread; subst st1; try (intros [= _ <-]; now left).
  unfold bind at 1, lift.
  destruct (bcrypt_hash_js rt env password) as [hash|]; [|intros [= _ <-]; now left].
  unfold bind.
  destruct (User_create rt env name email hash (logged UserFindOne st))
    as [[user|e] st2] eqn:Hcreate;
    unfold ret; intros [= _ <-];
    exact (User_create_users name email hash _ _ _ Hcreate).
Qed.

(** Registration keeps stored emails distinct. *)
Lemma register_preserves_unique_emails (req : Request) (st : Store) :
  unique_emails st -> unique_emails (snd (register rt env req st)).
Proof.
  unfold unique_emails. intros Huniq.
  destruct (register rt env req st) as [res st'] eqn:Hrun. cbn [snd].
  destruct (register_users req st st' res Hrun) as [-> | (user & -> & Hfree)];
    [exact Huniq|].
  rewrite map_app. apply NoDup_snoc; [exact Huniq|].
  apply email_not_taken, Hfree.
Qed.

(** With the email of a stored user, the lookup does not come back empty. *)
Lemma User_findOne_taken (e : string) (st : Store) :
  email_taken e (users st) = true ->
  fst (User_findOne rt env (JStr e) st) <> Ok None.
Proof.
  intros Htaken.
  unfold User_findOne, bind, record_call, lift, round_trip, read_store, ret, throw.
  cbn [email_condition].
  destruct (store_fails env UserFindOne); [discriminate|].
  cbn [fst users logged].
  destruct (email_taken_found e (users st) Htaken) as (u & ->). discriminate.
Qed.

Lemma register_taken_users (req : Request) (st : Store) (e : string) :
  get (body req) "email" = Ok (JStr e) ->
  email_taken e (users st) = true ->
  users (snd (register rt env req st)) = users st.
Proof.
  intros He Htaken.
  unfold register, try_catch, bind at 1 2 3, lift at 1 2 3. rewrite He.
  destruct (get (body req) "name") as [name|]; [|reflexivity].
  destruct (get (body req) "password") as [password|]; [|reflexivity].
  destruct (negb (truthy name) || negb (truthy (JStr e)) || negb (truthy password))%bool;
    [reflexivity|].
  unfold bind at 1.
  pose proof (User_findOne_reads rt env (JStr e) st) as Hread.
  pose proof (User_findOne_taken e st Htaken) as Hsome.
  destruct (User_findOne rt env (JStr e) st) as [[[found|]|err] st1];
    cbn [snd fst] in Hread, Hsome; subst st1; try reflexivity.
  now contradiction Hsome.
Qed.

Lemma register_taken_conflict (req : Request) (st : Store)
    (name password : JSValue) (e : string) :
  get (body req) "name" = Ok name ->
  get (body req) "email" = Ok (JStr e) ->
  get (body req) "password" = Ok password ->
  truthy name = true -> truthy (JStr e) = true -> truthy password = true ->
  store_fails env UserFindOne = false ->
  email_taken e (users st) = true ->
  register rt env req st
  = (json 409 (Message "Email already registered"), logged UserFindOne st).
Proof.
  intros Hn He Hp Tn Te Tp Hup Htaken.
  rewrite (register_run rt env req st name (JStr e) password Hn He Hp Tn Te Tp).
  unfold try_catch, bind.
  rewrite (User_findOne_run rt env (JStr e) (String.eqb e) st eq_refl Hup).
  destruct (email_taken_found e (users st) Htaken) as (u & ->). reflexivity.
Qed.

(** The presence check comes first. *)
Lemma register_missing_fields (req : Request) (st : Store)
    (name email password : JSValue) :
  get (body req) "name" = Ok name ->
  get (body req) "email" = Ok email ->
  get (body req) "password" = Ok password ->
  truthy email = false \/ (truthy name = false \/ truthy password = false) ->
  fst (register rt env req st) = json 400 (Message "Missing fields").
Proof.
  intros Hn He Hp Hmissing.
  unfold register, try_catch, bind at 1 2 3, lift at 1 2 3.
  rewrite Hn, He, Hp.
  assert ((negb (truthy name) || negb (truthy email) || negb (truthy password))%bool
          = true) as ->; [|reflexivity].
  destruct Hmissing as [-> | [-> | ->]];
    destruct (truthy name), (truthy email), (truthy password); reflexivity.
Qed.

End Registration.

(** C5 (as amended): a [POST /api/auth/register] request whose email is the
    email of a stored user leaves the stored users as they are; it is
    answered 409 when name, email and password are all present and the store
    answers the lookup, and 400 when name or password is missing; and no
    registration request makes two stored users share an email. *)
Theorem register_existing_email (rt : Runtime) (env : Env) :
  (forall req st e,
      get (body req) "email" = Ok (JStr e) ->
      email_taken e (users st) = true ->
      users (snd (app rt env POST_register req st)) = users st
      /\ (forall name password,
             get (body req) "name" = Ok name ->
             get (body req) "password" = Ok password ->
             truthy name = true -> truthy (JStr e) = true ->
             truthy password = true ->
             store_fails env UserFindOne = false ->
             fst (app rt env POST_register req st)
             = json 409 (Message "Email already registered"))
      /\ (forall name password,
             get (body req) "name" = Ok name ->
             get (body req) "password" = Ok password ->
             truthy name = false \/ truthy password = false ->
             fst (app rt env POST_register req st)
             = json 400 (Message "Missing fields")))
  /\
  (forall req st,
      unique_emails st -> unique_emails (snd (app rt env POST_register req st))).
Proof.
  cbn [app]. split.
  - intros req st e He Htaken. split; [|split].
    + exact (register_taken_users rt env req st e He Htaken).
    + intros name password Hn Hp Tn Te Tp Hup.
      now rewrite (register_taken_conflict rt env req st name password e
                     Hn He Hp Tn Te Tp Hup Htaken).
    + intros name password Hn Hp Hmissing.
      exact (register_missing_fields rt env req st name (JStr e) password
               Hn He Hp (or_intror Hmissing)).
  - intros req st. apply register_preserves_unique_emails.
Qed.

Lemma register_existing_email_witness :
  fst (app Reference.runtime Sample.env POST_register
         (Sample.request None ""
            (JObj [("name", JStr "Ana B."); ("email", JStr "ana@example.com");
                   ("password", JStr "another")]))
         Sample.store)
  = json 409 (Message "Email already registered").
Proof.
  apply (proj1 (proj2 (proj1 (register_existing_email Reference.runtime Sample.env)
                         (Sample.request None ""
                            (JObj [("name", JStr "Ana B.");
                                   ("email", JStr "ana@example.com");
                                   ("password", JStr "another")]))
                         Sample.store "ana@example.com" eq_refl eq_refl))
           (JStr "Ana B.") (JStr "another"));
    reflexivity.
Defined.

(** A registration request with the email of a stored user and no name or
    password: the answer is 400 "Missing fields", not 409. *)
Lemma register_existing_email_missing_fields :
  let (res, st') :=
    app Reference.runtime Sample.env POST_register
      (Sample.request None "" (JObj [("email", JStr "ana@example.com")]))
      Sample.store in
  email_taken "ana@example.com" (users Sample.store) = true
  /\ res = json 400 (Message "Missing fields")
  /\ status res <> 409%N
  /\ users st' = users Sample.store.
Proof.
  vm_compute. repeat split; discriminate.
Qed.

(** ** Tokens *)

Lemma append_assoc (a b c : string) : ((a ++ b) ++ c = a ++ (b ++ c))%string.
Proof. induction a as [|x a IH]; simpl; [reflexivity | now rewrite IH]. Qed.

Lemma segments_nonempty (s : string) : SpecJwt.segments s <> [].
Proof.
  induction s as [|c s IH]; cbn [SpecJwt.segments]; [discriminate|].
  destruct (Ascii.eqb c SpecJwt.dot); [discriminate|].
  destruct (SpecJwt.segments s); [contradiction | discriminate].
Qed.

(** A decimal numeral has no dot: it is one field, and it ends at the first
    dot that follows it. *)
Lemma segments_numeral (d : Decimal.uint) (t : string) :
  SpecJwt.segments (NilEmpty.string_of_uint d ++ String SpecJwt.dot t)
  = NilEmpty.string_of_uint d :: SpecJwt.segments t.
Proof.
  induction d as [|d IH|d IH|d IH|d IH|d IH|d IH|d IH|d IH|d IH|d IH];
    cbn [NilEmpty.string_of_uint append SpecJwt.segments];
    [reflexivity | rewrite IH; reflexivity ..].
Qed.

Lemma segments_numeral_last (d : Decimal.uint) :
  SpecJwt.segments (NilEmpty.string_of_uint d) = [NilEmpty.string_of_uint d].
Proof.
  induction d as [|d IH|d IH|d IH|d IH|d IH|d IH|d IH|d IH|d IH|d IH];
    cbn [NilEmpty.string_of_uint SpecJwt.segments];
    [reflexivity | rewrite IH; reflexivity ..].
Qed.

Lemma to_uint_nonnil (n : N) : N.to_uint n <> Decimal.Nil.
Proof.
  destruct n as [|p]; cbn [N.to_uint]; [discriminate|].
  apply DecimalPos.Unsigned.to_uint_nonnil.
Qed.

Lemma unfield_field (n : N) : SpecJwt.unfield (SpecJwt.field n) = Some n.
Proof.
  unfold SpecJwt.unfield, SpecJwt.field.
  pose proof (NilEmpty.usu (N.to_uint n)) as Hus.
  destruct (NilEmpty.string_of_uint (N.to_uint n)) as [|c s] eqn:Hs.
  - exfalso. apply (to_uint_nonnil n).
    destruct (N.to_uint n); try discriminate Hs. reflexivity.
  - rewrite Hus. cbn [option_map]. f_equal. apply DecimalN.Unsigned.of_to.
Qed.

Section SpecTokens.
Variable hmac : string -> string -> N.

Lemma sign_segments (id : ObjectId) (secret : string) (expiresIn now : N) :
  SpecJwt.segments (SpecJwt.sign hmac id secret expiresIn now)
  = [SpecJwt.field id; SpecJwt.field (now + expiresIn);
     SpecJwt.field (hmac secret
                      (SpecJwt.signing_input (SpecJwt.field id)
                         (SpecJwt.field (now + expiresIn))))].
Proof.
  unfold SpecJwt.sign, SpecJwt.signing_input.
  rewrite append_assoc. cbn [append]. unfold SpecJwt.field.
  rewrite segments_numeral, segments_numeral, segments_numeral_last.
  reflexivity.
Qed.

(** Verifying a token of [sign] under the same secret: the signature checks
    and only the clock decides. *)
Lemma verify_sign (id : ObjectId) (secret : string) (expiresIn issued now : N) :
  SpecJwt.verify hmac (SpecJwt.sign hmac id secret expiresIn issued) secret now
  = if N.ltb now (issued + expiresIn)
    then Ok {| decoded_id := id; decoded_exp := issued + expiresIn |}
    else Throw TokenExpiredError.
Proof.
  unfold SpecJwt.verify. rewrite sign_segments.
  rewrite !unfield_field, N.eqb_refl. reflexivity.
Qed.

Lemma sign_nonempty (id : ObjectId) (secret : string) (expiresIn now : N) :
  SpecJwt.sign hmac id secret expiresIn now <> "".
Proof.
  intros H. pose proof (sign_segments id secret expiresIn now) as Hseg.
  rewrite H in Hseg. discriminate Hseg.
Qed.

End SpecTokens.

(** C2: a token issued for an id verifies to that id at every reading of
    the clock before issuance plus 7 days, and is refused -- [authUser]
    answers 401 -- at every reading after it.  The clock counts seconds;
    the token functions are the ones modelled from the specification. *)
Theorem token_round_trip (hmac : string -> string -> N) (rt : Runtime) (env : Env)
    (id : ObjectId) (now : N) (next : Handler) (req : Request) (st : Store) :
  authorization req
  = Some ("Bearer " ++ issueToken (with_spec_jwt hmac rt) env id) ->
  ((now < clock env + expiresIn_7d)%N ->
   (exists decoded,
       verifyToken (with_spec_jwt hmac rt) (at_time env now)
         (issueToken (with_spec_jwt hmac rt) env id) = Ok decoded
       /\ decoded_id decoded = id)
   /\ authUser (with_spec_jwt hmac rt) (at_time env now) next req st
      = next (set_userId req id) st)
  /\
  ((clock env + expiresIn_7d < now)%N ->
   (exists e,
       verifyToken (with_spec_jwt hmac rt) (at_time env now)
         (issueToken (with_spec_jwt hmac rt) env id) = Throw e)
   /\ authUser (with_spec_jwt hmac rt) (at_time env now) next req st
      = (json 401 (Message "Invalid token"), st)).
Proof.
  intros Hauth.
  assert (Hver : verifyToken (with_spec_jwt hmac rt) (at_time env now)
                   (issueToken (with_spec_jwt hmac rt) env id)
                 = if N.ltb now (clock env + expiresIn_7d)
                   then Ok {| decoded_id := id;
                              decoded_exp := clock env + expiresIn_7d |}
                   else Throw TokenExpiredError).
  { unfold verifyToken, issueToken. cbn [jwt_verify jwt_sign with_spec_jwt].
    change (JWT_SECRET (at_time env now)) with (JWT_SECRET env).
    cbn [clock at_time]. apply verify_sign. }
  assert (Hne : issueToken (with_spec_jwt hmac rt) env id <> "").
  { unfold issueToken. cbn [jwt_sign with_spec_jwt]. apply sign_nonempty. }
  split; intros Hnow.
  - apply N.ltb_lt in Hnow. rewrite Hnow in Hver. split.
    + eexists. split; [exact Hver | reflexivity].
    + exact (authUser_accepts _ _ next req st _ _ Hauth Hne Hver).
  - assert (N.ltb now (clock env + expiresIn_7d) = false) as Hexp
      by (apply N.ltb_ge; lia).
    rewrite Hexp in Hver. split.
    + eexists. exact Hver.
    + exact (authUser_rejects_invalid _ _ next req st _ _ Hauth Hne Hver).
Qed.

Lemma token_round_trip_witness :
  (authUser Reference.runtime (at_time Sample.env 605799)
     (create_order Reference.runtime (at_time Sample.env 605799))
     (Sample.order_request Sample.two_items) Sample.store
   = create_order Reference.runtime (at_time Sample.env 605799)
       (set_userId (Sample.order_request Sample.two_items) 1%N) Sample.store)
  /\
  (authUser Reference.runtime (at_time Sample.env 605801)
     (create_order Reference.runtime (at_time Sample.env 605801))
     (Sample.order_request Sample.two_items) Sample.store
   = (json 401 (Message "Invalid token"), Sample.store)).
Proof.
  split.
  - apply (proj1 (token_round_trip Reference.hmac Reference.runtime Sample.env
                    1%N 605799%N
                    (create_order Reference.runtime (at_time Sample.env 605799))
                    (Sample.order_request Sample.two_items) Sample.store eq_refl)).
    reflexivity.
  - apply (proj2 (token_round_trip Reference.hmac Reference.runtime Sample.env
                    1%N 605801%N
                    (create_order Reference.runtime (at_time Sample.env 605801))
                    (Sample.order_request Sample.two_items) Sample.store eq_refl)).
    reflexivity.
Defined.

(** * Further properties of the routes *)

(** ** What each route can do to the store *)

Lemma same_collections_refl (st : Store) : same_collections st st.
Proof. repeat split. Qed.

Lemma same_collections_logged (op : StoreOp) (st : Store) :
  same_collections (logged op st) st.
Proof. repeat split. Qed.

Lemma find_app_fresh {A} (f : A -> bool) (l : list A) (a : A) :
  List.find f l = None -> f a = true -> List.find f (l ++ [a]) = Some a.
Proof.
  induction l as [|b l IH]; cbn [List.find List.app]; intros Hnone Ha.
  - now rewrite Ha.
  - destruct (f b); [discriminate | exact (IH Hnone Ha)].
Qed.

Lemma email_free_not_found (e : string) (us : list User) :
  email_taken e us = false ->
  List.find (fun u => String.eqb e (u_email u)) us = None.
Proof.
  unfold email_taken.
  induction us as [|u us IH]; cbn [List.existsb List.find]; [reflexivity|].
  rewrite (String.eqb_sym e (u_email u)).
  destruct (String.eqb (u_email u) e); [discriminate | exact IH].
Qed.

Lemma email_taken_snoc (e : string) (us : list User) (u : User) :
  u_email u = e -> email_taken e (us ++ [u]) = true.
Proof.
  intros <-. unfold email_taken. rewrite existsb_app. cbn [List.existsb].
  rewrite String.eqb_refl. now rewrite orb_true_r.
Qed.

Section Outcomes.
Variable rt : Runtime.
Variable env : Env.

(** [authUser] either answers 401 itself, leaving the store, or hands the
    request over with some [userId] set. *)
Lemma authUser_cases (next : Handler) (req : Request) (st : Store) :
  (exists message, authUser rt env next req st = (json 401 (Message message), st))
  \/ (exists id, authUser rt env next req st = next (set_userId req id) st).
Proof.
  unfold authUser.
  destruct (bearer_token (header_or_empty (authorization req))) as [t|];
    [|left; eexists; reflexivity].
  destruct (String.eqb t ""); [left; eexists; reflexivity|].
  destruct (verifyToken rt env t) as [decoded|e].
  - right. eexists. reflexivity.
  - left. eexists. reflexivity.
Qed.

Lemma get_products_outcome (req : Request) (st : Store) :
  snd (get_products env req st) = logged ProductFind st
  /\ In (status (fst (get_products env req st))) (statuses_of GET_products).
Proof.
  unfold get_products, try_catch, bind, Product_find, bind, record_call,
    round_trip, read_store, throw, ret.
  destruct (store_fails env ProductFind); cbn; auto.
Qed.

Lemma get_product_outcome (req : Request) (st : Store) :
  snd (get_product rt env req st) = logged ProductFindById st
  /\ In (status (fst (get_product rt env req st))) (statuses_of GET_product).
Proof.
  unfold get_product, try_catch, bind, Product_findById, bind, record_call,
    round_trip, read_store, throw, ret.
  destruct (castObjectId rt (JStr (params_id req))) as [oid|]; [|cbn; auto].
  destruct (store_fails env ProductFindById); [cbn; auto|].
  cbn [products logged].
  destruct (List.find (fun p => N.eqb (p_id p) oid) (products st)); cbn; auto.
Qed.

Lemma login_outcome (req : Request) (st st' : Store) (res : Response) :
  login rt env req st = (res, st') ->
  same_collections st' st /\ In (status res) (statuses_of POST_login).
Proof.
  unfold login, try_catch, bind at 1 2, lift at 1 2.
  destruct (get (body req) "email") as [email|];
    [|intros [= <- <-]; split; [apply same_collections_refl | cbn; auto]].
  destruct (get (body req) "password") as [password|];
    [|intros [= <- <-]; split; [apply same_collections_refl | cbn; auto]].
  destruct (negb (truthy email) || negb (truthy password))%bool;
    [intros [= <- <-]; split; [apply same_collections_refl | cbn; auto]|].
  unfold bind at 1.
  pose proof (User_findOne_reads rt env email st) as Hread.
  destruct (User_findOne rt env email st) as [[[user|]|e] st1];
    cbn [snd] in Hread; subst st1;
    try (intros [= <- <-]; split; [apply same_collections_logged | cbn; auto]).
  unfold bind, lift.
  destruct (bcrypt_compare_js rt password (u_password user)) as [[|]|];
    intros [= <- <-]; (split; [apply same_collections_logged | cbn; auto]).
Qed.

Lemma User_create_outcome (name email : JSValue) (hash : string) (st st' : Store)
    (r : result User) :
  User_create rt env name email hash st = (r, st') ->
  (st' = logged UserCreate st /\ exists e, r = Throw e)
  \/ (exists user,
         r = Ok user
         /\ st' = insert_user user (logged UserCreate st)
         /\ u_id user = next_id st
         /\ u_password user = hash
         /\ email_taken (u_email user) (users st) = false).
Proof.
  unfold User_create, bind, record_call, round_trip, throw, ret.
  destruct (castRequiredString rt name) as [n|];
    [|intros [= <- <-]; left; split; [reflexivity | eexists; reflexivity]].
  destruct (castRequiredString rt email) as [e|];
    [|intros [= <- <-]; left; split; [reflexivity | eexists; reflexivity]].
  destruct (String.eqb hash "");
    [intros [= <- <-]; left; split; [reflexivity | eexists; reflexivity]|].
  destruct (store_fails env UserCreate);
    [intros [= <- <-]; left; split; [reflexivity | eexists; reflexivity]|].
  cbn [users logged].
  destruct (email_taken e (users st)) eqn:Htaken; intros [= <- <-].
  - left. split; [reflexivity | eexists; reflexivity].
  - right. eexists. repeat split. exact Htaken.
Qed.

Lemma register_outcome (req : Request) (st st' : Store) (res : Response) :
  register rt env req st = (res, st') ->
  (same_collections st' st /\ In (status res) [400; 409; 500]%N)
  \/ (exists user,
         res = session_for rt env user
         /\ st' = after_registration user st
         /\ u_id user = next_id st
         /\ email_taken (u_email user) (users st) = false).
Proof.
  unfold register, try_catch, bind at 1 2 3, lift at 1 2 3.
  destruct (get (body req) "name") as [name|];
    [|intros [= <- <-]; left; split; [apply same_collections_refl | cbn; auto]].
  destruct (get (body req) "email") as [email|];
    [|intros [= <- <-]; left; split; [apply same_collections_refl | cbn; auto]].
  destruct (get (body req) "password") as [password|];
    [|intros [= <- <-]; left; split; [apply same_collections_refl | cbn; auto]].
  destruct (negb (truthy name) || negb (truthy email) || negb (truthy password))%bool;
    [intros [= <- <-]; left; split; [apply same_collections_refl | cbn; auto]|].
  unfold bind at 1.
  pose proof (User_findOne_reads rt env email st) as Hread.
  destruct (User_findOne rt env email st) as [[[found|]|e] st1];
    cbn [snd] in Hread; subst st1;
    try (intros [= <- <-]; left;
         split; [apply same_collections_logged | cbn; auto]).
  unfold bind at 1, lift.
  destruct (bcrypt_hash_js rt env password) as [hash|];
    [|intros [= <- <-]; left; split; [apply same_collections_logged | cbn; auto]].
  unfold bind.
  destruct (User_create rt env name email hash (logged UserFindOne st))
    as [[user|e] st2] eqn:Hcreate; unfold ret; intros [= <- <-];
    destruct (User_create_outcome _ _ _ _ _ _ Hcreate)
      as [[-> (e' & He')] | (u & Hu & -> & Hid & _ & Hfree)];
    try discriminate.
  - injection Hu as <-. right. exists user. repeat split; assumption.
  - left. split; [repeat split | cbn; auto].
Qed.

Lemma create_order_outcome (req : Request) (st st' : Store) (res : Response) :
  create_order rt env req st = (res, st') ->
  (same_collections st' st /\ In (status res) [400; 500]%N)
  \/ (exists order,
         res = json 201 (OrderDoc order)
         /\ st' = insert_order order (logged OrderCreate st)
         /\ o_id order = next_id st
         /\ o_createdAt order = clock env
         /\ req_userId req = Some (o_userId order)).
Proof.
  unfold create_order, try_catch, bind at 1, lift at 1.
  destruct (get (body req) "items") as [items|];
    [|intros [= <- <-]; left; split; [apply same_collections_refl | cbn; auto]].
  destruct (negb (Array_isArray items) || Nat.eqb (List.length (elements items)) 0)%bool;
    [intros [= <- <-]; left; split; [apply same_collections_refl | cbn; auto]|].
  unfold bind at 1, lift.
  destruct (reduce rt (elements items) PrimFloat.zero) as [total|];
    [|intros [= <- <-]; left; split; [apply same_collections_refl | cbn; auto]].
  unfold bind, Order_create, bind, record_call, round_trip, throw, ret.
  destruct (validateOrder rt (req_userId req) (elements items) total) as [doc|] eqn:Hval;
    [|intros [= <- <-]; left; split; [apply same_collections_logged | cbn; auto]].
  destruct (store_fails env OrderCreate);
    [intros [= <- <-]; left; split; [apply same_collections_logged | cbn; auto]|].
  intros [= <- <-]. right.
  destruct (validateOrder_inv _ _ _ _ _ Hval) as (uid & its & Huid & _ & _ & ->).
  eexists. repeat split. exact Huid.
Qed.

End Outcomes.

Lemma authenticated_run (rt : Runtime) (env : Env) (req : Request)
    (decoded : Decoded) (next : Handler) (st : Store) :
  authenticated rt env req decoded ->
  authUser rt env next req st = next (set_userId req (decoded_id decoded)) st.
Proof.
  intros (tok & Hauth & Htok & Hver).
  exact (authUser_accepts rt env next req st tok decoded Hauth Htok Hver).
Qed.

Lemma sample_authenticated (elems : list JSValue) :
  authenticated Reference.runtime Sample.env (Sample.order_request elems)
    {| decoded_id := 1%N; decoded_exp := 605800%N |}.
Proof.
  exists Sample.token. split; [reflexivity|]. split.
  - exact sample_token_nonempty.
  - exact sample_token_verifies.
Qed.

(** X2: the routes that only read -- the two product routes, login and the
    liveness route -- leave the products, users and orders and the next
    identifier as they were, whatever they answer. *)
Theorem read_routes_leave_collections (rt : Runtime) (env : Env) (r : Route)
    (req : Request) (st : Store) :
  r <> POST_register ->
  r <> POST_orders ->
  same_collections (snd (app rt env r req st)) st.
Proof.
  intros Hreg Hord. destruct r; cbn [app]; try contradiction.
  - rewrite (proj1 (get_products_outcome env req st)). apply same_collections_logged.
  - rewrite (proj1 (get_product_outcome rt env req st)). apply same_collections_logged.
  - destruct (login rt env req st) as [res st'] eqn:Hrun.
    exact (proj1 (login_outcome rt env req st st' res Hrun)).
  - apply same_collections_refl.
Qed.

Lemma read_routes_leave_collections_witness :
  same_collections
    (snd (app Reference.runtime Sample.env POST_login
            (Sample.request None ""
               (JObj [("email", JStr "ana@example.com"); ("password", JStr "s3cret")]))
            Catalog.store))
    Catalog.store.
Proof.
  apply (read_routes_leave_collections Reference.runtime Sample.env POST_login);
    discriminate.
Defined.

(** X3: the two routes that write append at most one document, to their own
    collection and under the next identifier: registration leaves products
    and orders alone and adds at most one user, whose email no stored user
    had; the order route leaves products and users alone and adds at most
    one order. *)
Theorem write_routes_append_one (rt : Runtime) (env : Env) (req : Request) (st : Store) :
  (let st' := snd (app rt env POST_register req st) in
   products st' = products st
   /\ orders st' = orders st
   /\ (users st' = users st
       \/ exists user,
            users st' = (users st ++ [user])%list
            /\ u_id user = next_id st
            /\ ~ In (u_email user) (List.map u_email (users st))))
  /\
  (let st' := snd (app rt env POST_orders req st) in
   products st' = products st
   /\ users st' = users st
   /\ (orders st' = orders st
       \/ exists order,
            orders st' = (orders st ++ [order])%list
            /\ o_id order = next_id st)).
Proof.
  cbn zeta. cbn [app]. split.
  - destruct (register rt env req st) as [res st'] eqn:Hrun. cbn [snd].
    destruct (register_outcome rt env req st st' res Hrun)
      as [[(Hp & Hu & Ho & _) _] | (user & _ & -> & Hid & Hfree)].
    + repeat split; try assumption. now left.
    + repeat split. right. exists user. repeat split; [exact Hid|].
      apply email_not_taken, Hfree.
  - destruct (authUser_cases rt env (create_order rt env) req st)
      as [(message & ->) | (id & ->)].
    + repeat split. now left.
    + destruct (create_order rt env (set_userId req id) st) as [res st'] eqn:Hrun.
      cbn [snd].
      destruct (create_order_outcome rt env _ st st' res Hrun)
        as [[(Hp & Hu & Ho & _) _] | (order & _ & -> & Hid & _)].
      * repeat split; try assumption. now left.
      * repeat split. right. exists order. split; [reflexivity | exact Hid].
Qed.

(** Every route answers a request that reached it with one of the status
    codes its handler writes; in particular [GET /api/products/:id] never answers 500 and the
    order route never answers 404 or 409. *)
Theorem route_statuses (rt : Runtime) (env : Env) (r : Route) (req : Request)
    (st : Store) :
  In (status (fst (app rt env r req st))) (statuses_of r).
Proof.
  destruct r; cbn [app].
  - exact (proj2 (get_products_outcome env req st)).
  - exact (proj2 (get_product_outcome rt env req st)).
  - destruct (register rt env req st) as [res st'] eqn:Hrun. cbn [fst].
    destruct (register_outcome rt env req st st' res Hrun)
      as [[_ Hin] | (user & -> & _)].
    + cbn in Hin |- *. intuition.
    + cbn. auto.
  - destruct (login rt env req st) as [res st'] eqn:Hrun.
    exact (proj2 (login_outcome rt env req st st' res Hrun)).
  - destruct (authUser_cases rt env (create_order rt env) req st)
      as [(message & ->) | (id & ->)].
    + cbn. auto.
    + destruct (create_order rt env (set_userId req id) st) as [res st'] eqn:Hrun.
      cbn [fst].
      destruct (create_order_outcome rt env _ st st' res Hrun)
        as [[_ Hin] | (order & -> & _)].
      * cbn in Hin |- *. intuition.
      * cbn. auto.
  - cbn. auto.
Qed.

(** ** Product lookup *)

Lemma find_first_match {A} (f : A -> bool) (l : list A) (a : A) :
  In a l -> f a = true -> exists b, List.find f l = Some b /\ In b l /\ f b = true.
Proof.
  induction l as [|c l IH]; intros Hin Ha; [contradiction|].
  cbn [List.find]. destruct (f c) eqn:Hc.
  - exists c. repeat split; [now left | exact Hc].
  - destruct Hin as [->|Hin]; [congruence|].
    destruct (IH Hin Ha) as (b & Hb & Hbin & Hfb).
    exists b. repeat split; [exact Hb | now right | exact Hfb].
Qed.

(** X5: [GET /api/products/:id] with an identifier that casts to the id of
    a stored product answers 200 with a stored product of that id and
    changes no collection (the store answering); with all products listed
    it is the first of that id. *)
Theorem get_product_found (rt : Runtime) (env : Env) (req : Request) (st : Store)
    (oid : ObjectId) (p : Product) :
  castObjectId rt (JStr (params_id req)) = Some oid ->
  store_fails env ProductFindById = false ->
  In p (products st) ->
  p_id p = oid ->
  exists found,
    app rt env GET_product req st
    = (json 200 (ProductDoc found), logged ProductFindById st)
    /\ In found (products st)
    /\ p_id found = oid
    /\ List.find (fun q => N.eqb (p_id q) oid) (products st) = Some found.
Proof.
  intros Hcast Hup Hin Hid. cbn [app].
  rewrite (get_product_lookup rt env req st oid Hcast Hup).
  destruct (find_first_match (fun q => N.eqb (p_id q) oid) (products st) p Hin)
    as (found & Hfind & Hfin & Hfid).
  { apply N.eqb_eq, Hid. }
  exists found. rewrite Hfind. repeat split; try assumption.
  apply N.eqb_eq, Hfid.
Qed.

Lemma get_product_found_witness :
  exists found,
    app Reference.runtime Sample.env GET_product
      (Sample.request None "0123456789abcdef01234568" JUndefined) Catalog.store
    = (json 200 (ProductDoc found), logged ProductFindById Catalog.store)
    /\ In found (products Catalog.store)
    /\ p_id found = 352125166730063718056674664%N
    /\ List.find (fun q => N.eqb (p_id q) 352125166730063718056674664%N)
         (products Catalog.store) = Some found.
Proof.
  apply (get_product_found Reference.runtime Sample.env
           (Sample.request None "0123456789abcdef01234568" JUndefined)
           Catalog.store 352125166730063718056674664%N Catalog.cap).
  - vm_compute. reflexivity.
  - reflexivity.
  - right. left. reflexivity.
  - reflexivity.
Defined.

(** ** Registration, then login *)

Section RegisterLogin.
Variable rt : Runtime.
Variable env : Env.

Lemma truthy_string (s : string) : s <> "" -> truthy (JStr s) = true.
Proof. intros H. cbn [truthy]. now rewrite (eqb_empty_false s H). Qed.

Lemma castRequiredString_string (s : string) :
  s <> "" -> castRequiredString rt (JStr s) = Some s.
Proof. intros H. cbn [castRequiredString]. now rewrite (eqb_empty_false s H). Qed.

(** What [register] does with a registration it accepts. *)
Lemma register_accepts (req : Request) (st : Store) (n e p : string) :
  valid_registration rt env req st n e p ->
  register rt env req st
  = (session_for rt env (registered_user rt env st n e p),
     after_registration (registered_user rt env st n e p) st).
Proof.
  intros (Hn & He & Hp & Nn & Ne & Np & Hfree & Hfind & Hcreate & Hhash).
  rewrite (register_run rt env req st (JStr n) (JStr e) (JStr p) Hn He Hp
             (truthy_string n Nn) (truthy_string e Ne) (truthy_string p Np)).
  unfold try_catch, bind at 1.
  rewrite (User_findOne_run rt env (JStr e) (String.eqb e) st eq_refl Hfind).
  rewrite (email_free_not_found e (users st) Hfree).
  unfold bind at 1, lift. cbn [bcrypt_hash_js].
  unfold bind at 1, User_create, bind, record_call, round_trip, ret.
  rewrite (castRequiredString_string n Nn), (castRequiredString_string e Ne).
  rewrite (eqb_empty_false _ Hhash), Hcreate.
  cbn [users logged]. rewrite Hfree. reflexivity.
Qed.

End RegisterLogin.

(** X6: a registration with non-empty string fields and an email no stored
    user has (the store answering, bcrypt returning a hash) is answered 200
    with a token for the new user's id and the user's id, name and email;
    the stored users are the old ones followed by the new user, whose
    password is the bcrypt hash of the plaintext. *)
Theorem register_creates_user (rt : Runtime) (env : Env) (req : Request) (st : Store)
    (n e p : string) :
  valid_registration rt env req st n e p ->
  let (res, st') := app rt env POST_register req st in
  res = json 200 (Session (issueToken rt env (next_id st)) (next_id st) n e)
  /\ users st' = (users st ++ [registered_user rt env st n e p])%list
  /\ u_password (registered_user rt env st n e p) = bcrypt_hash rt (entropy env) p
  /\ products st' = products st
  /\ orders st' = orders st
  /\ next_id st' = N.succ (next_id st).
Proof.
  intros Hvalid. cbn [app]. rewrite (register_accepts rt env req st n e p Hvalid).
  repeat split.
Qed.

Lemma sample_registration :
  valid_registration Reference.runtime Sample.env
    (Sample.request None ""
       (JObj [("name", JStr "Bob"); ("email", JStr "bob@example.com");
              ("password", JStr "hunter2")]))
    Sample.store "Bob" "bob@example.com" "hunter2".
Proof.
  repeat split; discriminate.
Qed.

Lemma register_creates_user_witness :
  let (res, st') :=
    app Reference.runtime Sample.env POST_register
      (Sample.request None ""
         (JObj [("name", JStr "Bob"); ("email", JStr "bob@example.com");
                ("password", JStr "hunter2")]))
      Sample.store in
  res = json 200 (Session (issueToken Reference.runtime Sample.env 2%N) 2%N
                    "Bob" "bob@example.com")
  /\ users st'
     = (users Sample.store
        ++ [registered_user Reference.runtime Sample.env Sample.store
              "Bob" "bob@example.com" "hunter2"])%list
  /\ u_password (registered_user Reference.runtime Sample.env Sample.store
                   "Bob" "bob@example.com" "hunter2")
     = bcrypt_hash Reference.runtime (entropy Sample.env) "hunter2"
  /\ products st' = products Sample.store
  /\ orders st' = orders Sample.store
  /\ next_id st' = N.succ (next_id Sample.store).
Proof.
  exact (register_creates_user Reference.runtime Sample.env _ Sample.store
           "Bob" "bob@example.com" "hunter2" sample_registration).
Defined.

(** X7: after an accepted registration, a login with the same email and
    password is answered 200 with a token for the id registration gave and
    the registered name and email, provided bcrypt verifies the plaintext
    against the hash it made of it and the store answers the lookup. *)
Theorem register_then_login (rt : Runtime) (env env' : Env) (req req' : Request)
    (st : Store) (n e p : string) :
  valid_registration rt env req st n e p ->
  bcrypt_compare rt p (bcrypt_hash rt (entropy env) p) = true ->
  store_fails env' UserFindOne = false ->
  get (body req') "email" = Ok (JStr e) ->
  get (body req') "password" = Ok (JStr p) ->
  fst (app rt env' POST_login req' (snd (app rt env POST_register req st)))
  = json 200 (Session (issueToken rt env' (next_id st)) (next_id st) n e).
Proof.
  intros Hvalid Hcmp Hup He Hp. cbn [app].
  rewrite (register_accepts rt env req st n e p Hvalid). cbn [snd].
  destruct Hvalid as (_ & _ & _ & _ & Ne & Np & Hfree & _).
  rewrite (login_run rt env' req' _ (JStr e) (JStr p) He Hp
             (truthy_string e Ne) (truthy_string p Np)).
  unfold try_catch, bind at 1.
  rewrite (User_findOne_run rt env' (JStr e) (String.eqb e) _ eq_refl Hup).
  cbn [users after_registration insert_user logged].
  rewrite (find_app_fresh _ (users st) (registered_user rt env st n e p)
             (email_free_not_found e (users st) Hfree) (String.eqb_refl e)).
  unfold bind, lift. cbn [bcrypt_compare_js u_password registered_user].
  rewrite Hcmp. reflexivity.
Qed.

Lemma register_then_login_witness :
  fst (app Reference.runtime (at_time Sample.env 2000) POST_login
         (Sample.request None ""
            (JObj [("email", JStr "bob@example.com"); ("password", JStr "hunter2")]))
         (snd (app Reference.runtime Sample.env POST_register
                 (Sample.request None ""
                    (JObj [("name", JStr "Bob"); ("email", JStr "bob@example.com");
                           ("password", JStr "hunter2")]))
                 Sample.store)))
  = json 200 (Session (issueToken Reference.runtime (at_time Sample.env 2000) 2%N)
                2%N "Bob" "bob@example.com").
Proof.
  apply (register_then_login Reference.runtime Sample.env (at_time Sample.env 2000)
           _ _ Sample.store "Bob" "bob@example.com" "hunter2" sample_registration).
  - vm_compute. reflexivity.
  - reflexivity.
  - reflexivity.
  - reflexivity.
Defined.

(** X8: after an accepted registration, a second registration with the same
    email (name and password present, the store answering the lookup) is
    answered 409 and stores nothing. *)
Theorem register_twice_conflicts (rt : Runtime) (env env' : Env) (req req' : Request)
    (st : Store) (n e p : string) (name' password' : JSValue) :
  valid_registration rt env req st n e p ->
  store_fails env' UserFindOne = false ->
  get (body req') "name" = Ok name' ->
  get (body req') "email" = Ok (JStr e) ->
  get (body req') "password" = Ok password' ->
  truthy name' = true ->
  truthy password' = true ->
  let st1 := snd (app rt env POST_register req st) in
  app rt env' POST_register req' st1
  = (json 409 (Message "Email already registered"), logged UserFindOne st1).
Proof.
  intros Hvalid Hup Hn He Hp Tn Tp. cbn zeta. cbn [app].
  rewrite (register_accepts rt env req st n e p Hvalid). cbn [snd].
  destruct Hvalid as (_ & _ & _ & _ & Ne & _).
  apply (register_taken_conflict rt env' req' _ name' password' e
           Hn He Hp Tn (truthy_string e Ne) Tp Hup).
  cbn [users after_registration insert_user logged].
  now apply email_taken_snoc.
Qed.

Lemma register_twice_conflicts_witness :
  fst (app Reference.runtime Sample.env POST_register
         (Sample.request None ""
            (JObj [("name", JStr "Robert"); ("email", JStr "bob@example.com");
                   ("password", JStr "other")]))
         (snd (app Reference.runtime Sample.env POST_register
                 (Sample.request None ""
                    (JObj [("name", JStr "Bob"); ("email", JStr "bob@example.com");
                           ("password", JStr "hunter2")]))
                 Sample.store)))
  = json 409 (Message "Email already registered").
Proof.
  rewrite (register_twice_conflicts Reference.runtime Sample.env Sample.env
             _ (Sample.request None ""
                  (JObj [("name", JStr "Robert"); ("email", JStr "bob@example.com");
                         ("password", JStr "other")]))
             Sample.store "Bob" "bob@example.com" "hunter2"
             (JStr "Robert") (JStr "other") sample_registration
             eq_refl eq_refl eq_refl eq_refl eq_refl eq_refl).
  reflexivity.
Defined.

(** ** The checks that come before the store *)

(** X9: an authenticated order whose [items] is missing, not an array or
    an empty array is answered 400 "Items required", and neither the
    collections nor the history of calls change: [Order.create] is not
    called. *)
Theorem order_items_required (rt : Runtime) (env : Env) (req : Request) (st : Store)
    (decoded : Decoded) (items : JSValue) :
  authenticated rt env req decoded ->
  get (body req) "items" = Ok items ->
  Array_isArray items = false \/ items = JArr [] ->
  app rt env POST_orders req st = (json 400 (Message "Items required"), st).
Proof.
  intros Hauth Hitems Hbad. cbn [app].
  rewrite (authenticated_run rt env req decoded _ st Hauth).
  unfold create_order, try_catch, bind, lift.
  change (body (set_userId req (decoded_id decoded))) with (body req).
  rewrite Hitems.
  destruct Hbad as [-> | ->]; reflexivity.
Qed.

Lemma order_items_required_witness :
  (app Reference.runtime Sample.env POST_orders
     (Sample.request (Some ("Bearer " ++ Sample.token)) "" (JObj []))
     Sample.store
   = (json 400 (Message "Items required"), Sample.store))
  /\
  (app Reference.runtime Sample.env POST_orders
     (Sample.order_request []) Sample.store
   = (json 400 (Message "Items required"), Sample.store)).
Proof.
  split.
  - apply (order_items_required Reference.runtime Sample.env
             (Sample.request (Some ("Bearer " ++ Sample.token)) "" (JObj []))
             Sample.store {| decoded_id := 1%N; decoded_exp := 605800%N |}
             JUndefined).
    + exact (sample_authenticated []).
    + reflexivity.
    + left. reflexivity.
  - apply (order_items_required Reference.runtime Sample.env
             (Sample.order_request []) Sample.store
             {| decoded_id := 1%N; decoded_exp := 605800%N |} (JArr [])).
    + exact (sample_authenticated []).
    + reflexivity.
    + right. reflexivity.
Defined.

(** X10: registration and login answer 400 "Missing fields" when the
    email or the password is missing or falsy (an empty string, [null], 0,
    [false]), and registration also when the name is, before any call to the
    store: the store and its history are returned as they were. *)
Theorem missing_fields_before_store (rt : Runtime) (env : Env) (req : Request)
    (st : Store) (email password : JSValue) :
  get (body req) "email" = Ok email ->
  get (body req) "password" = Ok password ->
  truthy email = false \/ truthy password = false ->
  app rt env POST_login req st = (json 400 (Message "Missing fields"), st)
  /\ app rt env POST_register req st = (json 400 (Message "Missing fields"), st)
  /\ (forall req' name',
        get (body req') "name" = Ok name' ->
        truthy name' = false ->
        app rt env POST_register req' st = (json 400 (Message "Missing fields"), st)).
Proof.
  intros He Hp Hmissing. cbn [app].
  assert (Hbody : forall r key v, get (body r) key = Ok v ->
                  forall key', exists v', get (body r) key' = Ok v').
  { intros r key v H key'. unfold get in H |- *.
    destruct (body r); try discriminate; eexists; reflexivity. }
  destruct (Hbody req _ _ He "name") as (name & Hn).
  split; [|split].
  - unfold login, try_catch, bind, lift. rewrite He, Hp.
    destruct Hmissing as [-> | ->]; [reflexivity|].
    now rewrite orb_true_r.
  - unfold register, try_catch, bind, lift. rewrite Hn, He, Hp.
    destruct Hmissing as [-> | ->]; cbn [negb]; now rewrite ?orb_true_r.
  - intros req' name' Hn' Tn'.
    destruct (Hbody req' _ _ Hn' "email") as (email' & He').
    destruct (Hbody req' _ _ Hn' "password") as (password' & Hp').
    unfold register, try_catch, bind, lift. rewrite Hn', He', Hp', Tn'.
    reflexivity.
Qed.

Lemma missing_fields_before_store_witness :
  app Reference.runtime Sample.env POST_login
    (Sample.request None ""
       (JObj [("email", JStr "ana@example.com"); ("password", JStr "")]))
    Sample.store
  = (json 400 (Message "Missing fields"), Sample.store)
  /\ app Reference.runtime Sample.env POST_register
       (Sample.request None ""
          (JObj [("email", JStr "ana@example.com"); ("password", JStr "")]))
       Sample.store
     = (json 400 (Message "Missing fields"), Sample.store).
Proof.
  destruct (missing_fields_before_store Reference.runtime Sample.env
              (Sample.request None ""
                 (JObj [("email", JStr "ana@example.com"); ("password", JStr "")]))
              Sample.store (JStr "ana@example.com") (JStr "")
              eq_refl eq_refl (or_intror eq_refl)) as (Hlogin & Hregister & _).
  split; assumption.
Defined.

(** X11: when [req.body] is [undefined] or [null], reading its fields
    throws inside the [try]: registration and login answer 500, and so does
    an authenticated order; the store is returned as it was. *)
Theorem body_missing_is_500 (rt : Runtime) (env : Env) (req : Request) (st : Store) :
  body req = JUndefined \/ body req = JNull ->
  app rt env POST_register req st = (server_error, st)
  /\ app rt env POST_login req st = (server_error, st)
  /\ (forall decoded,
        authenticated rt env req decoded ->
        app rt env POST_orders req st = (server_error, st)).
Proof.
  intros Hbody. cbn [app].
  assert (Hget : forall key, get (body req) key = Throw TypeError).
  { intros key. destruct Hbody as [-> | ->]; reflexivity. }
  split; [|split].
  - unfold register, try_catch, bind, lift. now rewrite Hget.
  - unfold login, try_catch, bind, lift. now rewrite Hget.
  - intros decoded Hauth.
    rewrite (authenticated_run rt env req decoded _ st Hauth).
    unfold create_order, try_catch, bind, lift.
    change (body (set_userId req (decoded_id decoded))) with (body req).
    now rewrite Hget.
Qed.

Lemma body_missing_is_500_witness :
  app Reference.runtime Sample.env POST_login
    (Sample.request None "" JUndefined) Sample.store
  = (server_error, Sample.store).
Proof.
  apply (body_missing_is_500 Reference.runtime Sample.env
           (Sample.request None "" JUndefined) Sample.store).
  left. reflexivity.
Defined.

(** ** Items the total cannot be computed for *)

Lemma reduce_null (rt : Runtime) (elems : list JSValue) :
  In JNull elems -> forall acc, exists e, reduce rt elems acc = Throw e.
Proof.
  induction elems as [|it rest IH]; intros Hin acc; [contradiction|].
  cbn [reduce]. destruct Hin as [-> | Hin].
  - exists TypeError. reflexivity.
  - destruct (add_line rt acc it) as [acc'|e]; [apply (IH Hin) | now exists e].
Qed.

(** X12: an authenticated order whose [items] array contains [null] is
    answered 500: reading the price of [null] (or an earlier coercion)
    throws while the total is computed, so [Order.create] is not called and
    the store and its history are returned as they were. *)
Theorem null_item_is_500 (rt : Runtime) (env : Env) (req : Request) (st : Store)
    (decoded : Decoded) (elems : list JSValue) :
  authenticated rt env req decoded ->
  get (body req) "items" = Ok (JArr elems) ->
  In JNull elems ->
  app rt env POST_orders req st = (server_error, st).
Proof.
  intros Hauth Hitems Hin. cbn [app].
  rewrite (authenticated_run rt env req decoded _ st Hauth).
  assert (Hne : elems <> []) by (intros ->; contradiction).
  rewrite (create_order_run rt env (set_userId req (decoded_id decoded)) st elems
             Hitems Hne).
  destruct (reduce_null rt elems Hin PrimFloat.zero) as (e & ->). reflexivity.
Qed.

Lemma null_item_is_500_witness :
  app Reference.runtime Sample.env POST_orders
    (Sample.order_request
       [Sample.item "0123456789abcdef01234567" 2%float 10%float; JNull])
    Sample.store
  = (server_error, Sample.store).
Proof.
  apply (null_item_is_500 Reference.runtime Sample.env _ Sample.store
           {| decoded_id := 1%N; decoded_exp := 605800%N |}
           [Sample.item "0123456789abcdef01234567" 2%float 10%float; JNull]).
  - exact (sample_authenticated _).
  - reflexivity.
  - right. left. reflexivity.
Defined.

(** ** What a created order holds *)

Lemma castItems_fields (rt : Runtime) (elems : list JSValue) :
  forall its,
    castItems rt elems = Some its ->
    Forall2 (fun it oi =>
               exists props,
                 it = JObj props
                 /\ castRequiredObjectId rt (lookup "productId" props)
                    = Some (it_productId oi)
                 /\ Number rt (lookup "quantity" props) = Ok (it_quantity oi))
            elems its.
Proof.
  induction elems as [|it rest IH]; intros its H; cbn [castItems] in H.
  - injection H as <-. constructor.
  - destruct (castItem rt it) as [oi|] eqn:Hit; [|discriminate].
    destruct (castItems rt rest) as [ois|]; [|discriminate].
    injection H as <-. constructor; [|apply IH; reflexivity].
    unfold castItem in Hit. destruct it as [| | | | | |props]; try discriminate.
    destruct (castOwnId rt (lookup "_id" props)); [|discriminate].
    destruct (castRequiredObjectId rt (lookup "productId" props)) as [pid|] eqn:Hpid;
      [|discriminate].
    destruct (castNumber rt (lookup "quantity" props)) as [q|] eqn:Hq; [|discriminate].
    destruct (castNumber rt (lookup "price" props)); [|discriminate].
    injection Hit as <-. exists props.
    split; [reflexivity|]. split; [exact Hpid|].
    apply castNumber_Number, Hq.
Qed.

(** X13: the order an authenticated request creates belongs to the
    identity of the token, whatever the body says: its [userId] is the
    decoded id, its [createdAt] the clock, its [_id] the next identifier,
    and it has one stored item per submitted item, each submitted item being
    an object whose [productId] casts to the stored one and whose quantity
    is the stored one. *)
Theorem order_belongs_to_token_owner (rt : Runtime) (env : Env) (req : Request)
    (st : Store) (decoded : Decoded) (elems : list JSValue) :
  authenticated rt env req decoded ->
  get (body req) "items" = Ok (JArr elems) ->
  status (fst (app rt env POST_orders req st)) = 201%N ->
  exists order,
    fst (app rt env POST_orders req st) = json 201 (OrderDoc order)
    /\ orders (snd (app rt env POST_orders req st)) = (orders st ++ [order])%list
    /\ o_userId order = decoded_id decoded
    /\ o_createdAt order = clock env
    /\ o_id order = next_id st
    /\ Forall2 (fun it oi =>
                  exists props,
                    it = JObj props
                    /\ castRequiredObjectId rt (lookup "productId" props)
                       = Some (it_productId oi)
                    /\ Number rt (lookup "quantity" props) = Ok (it_quantity oi))
               elems (o_items order).
Proof.
  intros Hauth Hitems. cbn [app].
  rewrite (authenticated_run rt env req decoded _ st Hauth).
  destruct elems as [|it rest].
  { unfold create_order, try_catch, bind, lift.
    change (body (set_userId req (decoded_id decoded))) with (body req).
    rewrite Hitems. cbn. discriminate. }
  rewrite (create_order_run rt env (set_userId req (decoded_id decoded)) st
             (it :: rest) Hitems ltac:(discriminate)).
  destruct (reduce rt (it :: rest) PrimFloat.zero) as [total|]; [|cbn; discriminate].
  destruct (validateOrder rt _ (it :: rest) total) as [doc|] eqn:Hval;
    [|cbn; discriminate].
  destruct (store_fails env OrderCreate); [cbn; discriminate|].
  intros _.
  destruct (validateOrder_inv _ _ _ _ _ Hval) as (uid & its & Huid & Hits & _ & ->).
  injection Huid as <-.
  eexists. split; [reflexivity|]. repeat split.
  apply castItems_fields, Hits.
Qed.

Lemma order_belongs_to_token_owner_witness :
  exists order,
    fst (app Reference.runtime Sample.env POST_orders
           (Sample.request (Some ("Bearer " ++ Sample.token)) ""
              (JObj [("userId", JStr "0123456789abcdef0123456f");
                     ("items", JArr Sample.two_items)]))
           Sample.store)
    = json 201 (OrderDoc order)
    /\ o_userId order = 1%N.
Proof.
  destruct (order_belongs_to_token_owner Reference.runtime Sample.env
              (Sample.request (Some ("Bearer " ++ Sample.token)) ""
                 (JObj [("userId", JStr "0123456789abcdef0123456f");
                        ("items", JArr Sample.two_items)]))
              Sample.store {| decoded_id := 1%N; decoded_exp := 605800%N |}
              Sample.two_items)
    as (order & Hres & _ & Huid & _).
  - exists Sample.token. split; [reflexivity|]. split.
    + exact sample_token_nonempty.
    + exact sample_token_verifies.
  - reflexivity.
  - vm_compute. reflexivity.
  - exists order. split; assumption.
Defined.

(** ** A password that is not a string *)

(** X14: with email and password present and the password not a string
    (bcryptjs rejects such a plaintext), login answers 401 "Invalid
    credentials" when the email matches no stored user, and the catch
    block's 500 when it matches one (the store answering the lookup). *)
Theorem login_password_not_a_string (rt : Runtime) (env : Env) (req : Request)
    (st : Store) (email password : JSValue) :
  credentials_present req email password ->
  (forall s, password <> JStr s) ->
  store_fails env UserFindOne = false ->
  (unknown_email rt email st ->
   fst (app rt env POST_login req st) = invalid_credentials)
  /\
  (forall cond user,
      email_condition rt email = Ok cond ->
      List.find (fun u => cond (u_email u)) (users st) = Some user ->
      fst (app rt env POST_login req st) = server_error).
Proof.
  intros Hpresent Hnot Hup. cbn [app]. split.
  - intros Hunknown.
    now rewrite (login_unknown_email rt env Hup req st email password Hpresent Hunknown).
  - intros cond user Hc Hfind.
    destruct Hpresent as (He & Hp & Te & Tp).
    rewrite (login_run rt env req st email password He Hp Te Tp).
    unfold try_catch, bind, lift.
    rewrite (User_findOne_run rt env email cond st Hc Hup), Hfind.
    destruct password as [| | | |s| |]; try reflexivity.
    now contradiction (Hnot s).
Qed.

Lemma login_password_not_a_string_witness :
  fst (app Reference.runtime Sample.env POST_login
         (Sample.request None ""
            (JObj [("email", JStr "bob@example.com"); ("password", JNum 12345%float)]))
         Sample.store) = invalid_credentials
  /\
  fst (app Reference.runtime Sample.env POST_login
         (Sample.request None ""
            (JObj [("email", JStr "ana@example.com"); ("password", JNum 12345%float)]))
         Sample.store) = server_error.
Proof.
  split.
  - apply (proj1 (login_password_not_a_string Reference.runtime Sample.env
                    (Sample.request None ""
                       (JObj [("email", JStr "bob@example.com");
                              ("password", JNum 12345%float)]))
                    Sample.store (JStr "bob@example.com") (JNum 12345%float)
                    ltac:(repeat split) ltac:(discriminate) eq_refl)).
    exists (String.eqb "bob@example.com"). split; reflexivity.
  - apply (proj2 (login_password_not_a_string Reference.runtime Sample.env
                    (Sample.request None ""
                       (JObj [("email", JStr "ana@example.com");
                              ("password", JNum 12345%float)]))
                    Sample.store (JStr "ana@example.com") (JNum 12345%float)
                    ltac:(repeat split) ltac:(discriminate) eq_refl)
             (String.eqb "ana@example.com") Sample.ana);
      reflexivity.
Defined.

(** ** Registration, then an order *)

(** X15: the token an accepted registration answers with authenticates an
    order: when the token package verifies that token to the id it was
    signed for, a request bearing it whose items all cast against the item
    sub-schema and whose total is not NaN is answered 201, the store
    answering [Order.create], with an order owned by the registered user,
    stored after the user under the following identifier. *)
Theorem register_then_order (rt : Runtime) (env env' : Env) (req req' : Request)
    (st : Store) (n e p : string) (decoded : Decoded) (elems : list JSValue)
    (total : float) (its : list OrderItem) :
  valid_registration rt env req st n e p ->
  issueToken rt env (next_id st) <> "" ->
  verifyToken rt env' (issueToken rt env (next_id st)) = Ok decoded ->
  decoded_id decoded = next_id st ->
  authorization req' = Some ("Bearer " ++ issueToken rt env (next_id st)) ->
  get (body req') "items" = Ok (JArr elems) ->
  elems <> [] ->
  reduce rt elems PrimFloat.zero = Ok total ->
  PrimFloat.is_nan total = false ->
  castItems rt elems = Some its ->
  store_fails env' OrderCreate = false ->
  let (res, st1) := app rt env POST_register req st in
  let (res', st2) := app rt env' POST_orders req' st1 in
  res = json 200 (Session (issueToken rt env (next_id st)) (next_id st) n e)
  /\ res' = json 201 (OrderDoc (new_order env' (N.succ (next_id st))
                                  (next_id st, its, total)))
  /\ users st2 = (users st ++ [registered_user rt env st n e p])%list
  /\ orders st2 = (orders st ++ [new_order env' (N.succ (next_id st))
                                   (next_id st, its, total)])%list.
Proof.
  intros Hvalid Hne Hver Hid Hauth Hitems Hnonempty Hred Hnan Hits Hup.
  cbn [app]. rewrite (register_accepts rt env req st n e p Hvalid).
  rewrite (authUser_accepts rt env' _ req' _ _ decoded Hauth Hne Hver).
  rewrite (create_order_run rt env' (set_userId req' (decoded_id decoded)) _
             elems Hitems Hnonempty), Hred.
  cbn [req_userId set_userId]. rewrite Hid. unfold validateOrder.
  rewrite Hits. cbn [castNumber]. rewrite Hnan, Hup.
  repeat split.
Qed.

Lemma register_then_order_witness :
  let (res, st1) :=
    app Reference.runtime Sample.env POST_register
      (Sample.request None ""
         (JObj [("name", JStr "Bob"); ("email", JStr "bob@example.com");
                ("password", JStr "hunter2")]))
      Sample.store in
  let (res', st2) :=
    app Reference.runtime (at_time Sample.env 2000) POST_orders
      (Sample.request
         (Some ("Bearer " ++ issueToken Reference.runtime Sample.env 2%N)) ""
         (JObj [("items", JArr Sample.two_items)]))
      st1 in
  status res = 200%N
  /\ status res' = 201%N
  /\ List.map o_userId (orders st2) = [2%N]
  /\ List.map o_id (orders st2) = [3%N]
  /\ List.map o_total (orders st2) = [25%float].
Proof.
  pose proof (register_then_order Reference.runtime Sample.env
                (at_time Sample.env 2000)
                (Sample.request None ""
                   (JObj [("name", JStr "Bob"); ("email", JStr "bob@example.com");
                          ("password", JStr "hunter2")]))
                (Sample.request
                   (Some ("Bearer " ++ issueToken Reference.runtime Sample.env 2%N)) ""
                   (JObj [("items", JArr Sample.two_items)]))
                Sample.store "Bob" "bob@example.com" "hunter2"
                {| decoded_id := 2%N; decoded_exp := 605800%N |}
                Sample.two_items 25%float
                [{| it_productId := 352125166730063718056674663%N;
                    it_quantity := 2%float; it_price := 10%float |};
                 {| it_productId := 352125166730063718056674664%N;
                    it_quantity := 1%float; it_price := 5%float |}]
                sample_registration) as H.
  destruct (app Reference.runtime Sample.env POST_register _ Sample.store)
    as [res st1].
  destruct (app Reference.runtime (at_time Sample.env 2000) POST_orders _ st1)
    as [res' st2].
  destruct H as (-> & -> & _ & ->); try (vm_compute; reflexivity);
    try (vm_compute; discriminate).
  repeat split.
Defined.

(** * The order total, as stored and as sent *)

Section StoredItems.
Variable rt : Runtime.




End StoredItems.






(** * Login failures, for any password *)

(** C3, the defect: with email and password present and the store answering
    the lookup, an email that matches no stored user is answered 401
    "Invalid credentials"; an email that matches one is answered the same
    401 when [bcrypt.compare] answers false, but the 500 of the catch block
    when [bcrypt.compare] throws, which it does for every password that is
    not a string: for such a password the two causes of failure get
    different responses. *)
Theorem login_failure_causes (rt : Runtime) (env : Env) (req : Request) (st : Store)
    (email password : JSValue) :
  credentials_present req email password ->
  store_fails env UserFindOne = false ->
  (unknown_email rt email st ->
   fst (app rt env POST_login req st) = invalid_credentials)
  /\ (forall cond user,
        email_condition rt email = Ok cond ->
        List.find (fun u => cond (u_email u)) (users st) = Some user ->
        match bcrypt_compare_js rt password (u_password user) with
        | Ok false => fst (app rt env POST_login req st) = invalid_credentials
        | Ok true => fst (app rt env POST_login req st) = session_for rt env user
        | Throw _ => fst (app rt env POST_login req st) = server_error
        end)
  /\ ((forall s, password <> JStr s) ->
      forall hash, bcrypt_compare_js rt password hash = Throw BcryptError)
  /\ status server_error <> status invalid_credentials.
Proof.
  intros Hpresent Hup. cbn [app]. split; [|split; [|split]].
  - intros Hunknown.
    now rewrite (login_unknown_email rt env Hup req st email password Hpresent Hunknown).
  - intros cond user Hc Hfind.
    destruct Hpresent as (He & Hp & Te & Tp).
    rewrite (login_run rt env req st email password He Hp Te Tp).
    unfold try_catch, bind, lift.
    rewrite (User_findOne_run rt env email cond st Hc Hup), Hfind.
    destruct (bcrypt_compare_js rt password (u_password user)) as [[|]|];
      reflexivity.
  - intros Hnot hash. destruct password as [| | | |s| |]; try reflexivity.
    now contradiction (Hnot s).
  - discriminate.
Qed.

Lemma login_failure_causes_witness :
  fst (app Reference.runtime Sample.env POST_login
         (Sample.request None ""
            (JObj [("email", JStr "bob@example.com"); ("password", JNum 12345%float)]))
         Sample.store) = invalid_credentials
  /\
  fst (app Reference.runtime Sample.env POST_login
         (Sample.request None ""
            (JObj [("email", JStr "ana@example.com"); ("password", JNum 12345%float)]))
         Sample.store) = server_error.
Proof.
  split.
  - apply (proj1 (login_failure_causes Reference.runtime Sample.env
                    (Sample.request None ""
                       (JObj [("email", JStr "bob@example.com");
                              ("password", JNum 12345%float)]))
                    Sample.store (JStr "bob@example.com") (JNum 12345%float)
                    ltac:(repeat split) eq_refl)).
    exists (String.eqb "bob@example.com"). split; reflexivity.
  - exact (proj1 (proj2 (login_failure_causes Reference.runtime Sample.env
                    (Sample.request None ""
                       (JObj [("email", JStr "ana@example.com");
                              ("password", JNum 12345%float)]))
                    Sample.store (JStr "ana@example.com") (JNum 12345%float)
                    ltac:(repeat split) eq_refl))
             (String.eqb "ana@example.com") Sample.ana eq_refl eq_refl).
Defined.

(** * Requests as the body parser leaves them *)

(** C6 (as amended): a [POST /api/orders] request with no Authorization
    header, or one that is not of the form [Bearer <token>], never changes
    the store, so no order is created; it is answered 401 when the body
    parser accepts its body, and with the parser's own error (400 for
    malformed JSON) when it does not, the parser running before [authUser]. *)
Theorem orders_without_bearer_over_http (rt : Runtime) (env : Env)
    (hreq : HttpRequest) (st : Store) :
  (forall tok, tok <> "" -> http_authorization hreq <> Some ("Bearer " ++ tok)) ->
  let (res, st') := serve rt env POST_orders hreq st in
  st' = st
  /\ orders st' = orders st
  /\ match http_body hreq with
     | Parsed _ => res = json 401 (Message "No token provided")
     | Rejected code page => res = {| status := code; payload := Text page |}
     end.
Proof.
  intros Hnone. unfold serve.
  destruct (http_body hreq) as [b|code page].
  - cbn [app].
    rewrite (authUser_rejects_missing rt env (create_order rt env)
               {| authorization := http_authorization hreq;
                  params_id := http_params_id hreq;
                  body := b; req_userId := None |} st Hnone).
    repeat split.
  - repeat split.
Qed.

Lemma orders_without_bearer_over_http_witness :
  serve Reference.runtime Sample.env POST_orders
    {| http_authorization := None; http_params_id := "";
       http_body := Parsed (JObj [("items", JArr Sample.two_items)]) |}
    Sample.store
  = (json 401 (Message "No token provided"), Sample.store).
Proof.
  pose proof (orders_without_bearer_over_http Reference.runtime Sample.env
                {| http_authorization := None; http_params_id := "";
                   http_body := Parsed (JObj [("items", JArr Sample.two_items)]) |}
                Sample.store ltac:(intros tok _ H; discriminate H)) as H.
  destruct (serve Reference.runtime Sample.env POST_orders _ Sample.store)
    as [res st'].
  destruct H as (-> & _ & H). cbn [http_body] in H. now rewrite H.
Defined.

(** A [POST /api/orders] request with no Authorization header and a body
    that is not JSON: the parser's 400 is the answer, not 401; no order is
    created. *)
Lemma malformed_body_without_bearer :
  let (res, st') :=
    serve Reference.runtime Sample.env POST_orders
      {| http_authorization := None; http_params_id := "";
         http_body := Rejected 400 "SyntaxError: Unexpected end of JSON input" |}
      Sample.store in
  status res = 400%N
  /\ status res <> 401%N
  /\ orders st' = orders Sample.store.
Proof.
  vm_compute. repeat split; discriminate.
Qed.

(** X4: every route answers a request whose body the parser accepts with
    one of the status codes its handler writes -- [GET /api/products/:id]
    never 500, the order route never 404 or 409 -- and a request whose body
    the parser rejects with the parser's status, whatever the route, the
    store untouched. *)
Theorem http_statuses (rt : Runtime) (env : Env) (r : Route) (hreq : HttpRequest)
    (st : Store) :
  match http_body hreq with
  | Parsed _ => In (status (fst (serve rt env r hreq st))) (statuses_of r)
  | Rejected code _ =>
      status (fst (serve rt env r hreq st)) = code
      /\ snd (serve rt env r hreq st) = st
  end.
Proof.
  unfold serve. destruct (http_body hreq) as [b|code page].
  - apply route_statuses.
  - split; reflexivity.
Qed.

(** * An unknown identifier while the store fails *)

(** C7, the defect: on [GET /api/products/:id], an identifier that does not
    cast is answered 400 "Invalid ID", and one that casts and is the id of
    no stored product is answered 404 while the store answers; but while
    the store fails, that same well-formed identifier is answered 400
    "Invalid ID", the very answer of a malformed one. *)
Theorem unknown_id_answered_as_malformed (rt : Runtime) (env : Env)
    (req req' : Request) (st : Store) (oid : ObjectId) :
  castObjectId rt (JStr (params_id req)) = Some oid ->
  (forall p, In p (products st) -> p_id p <> oid) ->
  castObjectId rt (JStr (params_id req')) = None ->
  fst (app rt env GET_product req' st) = json 400 (Message "Invalid ID")
  /\ (store_fails env ProductFindById = false ->
      fst (app rt env GET_product req st) = json 404 (Message "Product not found"))
  /\ (store_fails env ProductFindById = true ->
      fst (app rt env GET_product req st) = json 400 (Message "Invalid ID")
      /\ fst (app rt env GET_product req st) = fst (app rt env GET_product req' st)).
Proof.
  intros Hcast Hnone Hbad. cbn [app].
  rewrite (get_product_malformed rt env req' st Hbad). cbn [fst].
  split; [reflexivity|]. split.
  - intros Hup. rewrite (get_product_lookup rt env req st oid Hcast Hup).
    rewrite find_none_of_all_false; [reflexivity|].
    intros p Hp. apply N.eqb_neq, Hnone, Hp.
  - intros Hdown. rewrite (get_product_unreachable rt env req st oid Hcast Hdown).
    split; reflexivity.
Qed.

Lemma unknown_id_answered_as_malformed_witness :
  fst (app Reference.runtime Sample.env_down GET_product
         (Sample.request None "0123456789abcdef01234567" JUndefined) Sample.store)
  = json 400 (Message "Invalid ID")
  /\ fst (app Reference.runtime Sample.env_down GET_product
            (Sample.request None "0123456789abcdef01234567" JUndefined) Sample.store)
     = fst (app Reference.runtime Sample.env_down GET_product
              (Sample.request None "not-an-id" JUndefined) Sample.store).
Proof.
  apply (proj2 (proj2 (unknown_id_answered_as_malformed Reference.runtime
                         Sample.env_down
                         (Sample.request None "0123456789abcdef01234567" JUndefined)
                         (Sample.request None "not-an-id" JUndefined)
                         Sample.store 352125166730063718056674663%N
                         ltac:(vm_compute; reflexivity)
                         ltac:(intros p [])
                         eq_refl))).
  reflexivity.
Defined.
